(** * GigSpace front end (static/js/app.js): dashboard daily-bonus logic

    A shallow embedding of the dashboard part of [app.js]: the toast
    system, the [apiCall] fetch wrapper, [formatNumber], [updateBalance],
    [displayTransactions], [checkDailyBonus] and [claimDailyBonus].

    Conventions.
    - JavaScript numbers that the code handles here are integer valued
      (epoch milliseconds, balances, streaks) and far below 2^53, so they
      are embedded as [Z]; [Math.floor (a / b)] with [b > 0] is [Z.div]
      and [%] is the truncating [Z.rem].
    - [Date.now ()] and the answer of the network are inputs of the
      embedded functions.
    - The page is a record with one optional field per element the code
      looks up with [document.getElementById]; [None] is the [null] answer.
    - Code that can throw lives in the monad [Js]; unlike a state-over-error
      transformer, a [Thrown] outcome keeps the mutations made before the
      throw, as a JavaScript exception does.
    - The handlers of the other pages ([logout], [claimWelcomeBonus], the
      auth form's [toggleMode], the earn page's [displayTasks], [setFilter],
      [loadTasks] and [completeTask], the shop's [displayShopItems],
      [loadShopItems] and [purchaseItem]) run in [JsX], which adds to the
      shared page the requests sent, the navigations registered and the
      variables of the page at hand. *)

From Stdlib Require Import ZArith List String Ascii Bool Lia.
From Stdlib Require Import Decimal DecimalString.
Import ListNotations.
Local Open Scope string_scope.
Local Open Scope Z_scope.

(** ** JavaScript values used by the page *)

Record JsError := mkError { err_name : string; err_message : string }.

(** [String(n)] for an integer-valued number below 1e21. *)
Definition numToString (n : Z) : string :=
  NilZero.string_of_int (Z.to_int n).

(** A property that is a string or is missing; interpolated in a template
    literal a missing one prints as [undefined]. *)
Definition interpolate (v : option string) : string :=
  match v with Some s => s | None => "undefined" end.

(** [v || dflt] for such a property: the empty string is falsy too. *)
Definition orElse (v : option string) (dflt : string) : string :=
  match v with
  | Some s => if String.eqb s EmptyString then dflt else s
  | None => dflt
  end.

(** ** Page state *)

Record UserData := mkUser {
  balance : Z;
  daily_streak : Z;
  last_daily_claim : Z
}.

Record Button := mkButton {
  disabled : bool;
  classList : list string;
  textContent : string
}.

Record Toast := mkToast {
  toast_id : nat;
  toast_className : string;
  toast_message : string;
  toast_faded : bool
}.

Inductive Callback :=
| CbCheckDailyBonus
| CbToastFade (id : nat)
| CbToastRemove (id : nat).

Record Timer := mkTimer { callback : Callback; delay : Z }.

Record State := mkState {
  userData : option UserData;
  toast_container : option (list Toast);
  next_toast : nat;
  nav_balance : option string;
  user_balance : option string;
  daily_streak_el : option string;
  recent_transactions : option string;
  claim_daily_btn : option Button;
  timers : list Timer;
  console : list JsError
}.

Definition set_userData (v : option UserData) (s : State) : State :=
  mkState v (toast_container s) (next_toast s) (nav_balance s)
          (user_balance s) (daily_streak_el s) (recent_transactions s)
          (claim_daily_btn s) (timers s) (console s).

Definition set_toasts (v : list Toast) (n : nat) (s : State) : State :=
  mkState (userData s) (Some v) n (nav_balance s)
          (user_balance s) (daily_streak_el s) (recent_transactions s)
          (claim_daily_btn s) (timers s) (console s).

Definition set_nav_balance (v : string) (s : State) : State :=
  mkState (userData s) (toast_container s) (next_toast s) (Some v)
          (user_balance s) (daily_streak_el s) (recent_transactions s)
          (claim_daily_btn s) (timers s) (console s).

Definition set_user_balance (v : string) (s : State) : State :=
  mkState (userData s) (toast_container s) (next_toast s) (nav_balance s)
          (Some v) (daily_streak_el s) (recent_transactions s)
          (claim_daily_btn s) (timers s) (console s).

Definition set_daily_streak_el (v : string) (s : State) : State :=
  mkState (userData s) (toast_container s) (next_toast s) (nav_balance s)
          (user_balance s) (Some v) (recent_transactions s)
          (claim_daily_btn s) (timers s) (console s).

Definition set_recent_transactions (v : string) (s : State) : State :=
  mkState (userData s) (toast_container s) (next_toast s) (nav_balance s)
          (user_balance s) (daily_streak_el s) (Some v)
          (claim_daily_btn s) (timers s) (console s).

Definition set_claim_daily_btn (v : Button) (s : State) : State :=
  mkState (userData s) (toast_container s) (next_toast s) (nav_balance s)
          (user_balance s) (daily_streak_el s) (recent_transactions s)
          (Some v) (timers s) (console s).

Definition set_timers (v : list Timer) (s : State) : State :=
  mkState (userData s) (toast_container s) (next_toast s) (nav_balance s)
          (user_balance s) (daily_streak_el s) (recent_transactions s)
          (claim_daily_btn s) v (console s).

Definition set_console (v : list JsError) (s : State) : State :=
  mkState (userData s) (toast_container s) (next_toast s) (nav_balance s)
          (user_balance s) (daily_streak_el s) (recent_transactions s)
          (claim_daily_btn s) (timers s) v.

(** ** The monad of page code: state plus exceptions *)

Inductive Outcome (A : Type) :=
| Normal (a : A)
| Thrown (e : JsError).
Arguments Normal {A} a.
Arguments Thrown {A} e.

Definition Js (A : Type) : Type := State -> Outcome A * State.

Definition ret {A} (a : A) : Js A := fun s => (Normal a, s).

Definition bind {A B} (m : Js A) (k : A -> Js B) : Js B :=
  fun s =>
    match m s with
    | (Normal a, s') => k a s'
    | (Thrown e, s') => (Thrown e, s')
    end.

Definition throw {A} (e : JsError) : Js A := fun s => (Thrown e, s).

(** [try { body } catch (error) { handler }] *)
Definition tryCatch {A} (body : Js A) (handler : JsError -> Js A) : Js A :=
  fun s =>
    match body s with
    | (Normal a, s') => (Normal a, s')
    | (Thrown e, s') => handler e s'
    end.

Definition gets {A} (f : State -> A) : Js A := fun s => (Normal (f s), s).
Definition modify (f : State -> State) : Js unit := fun s => (Normal tt, f s).

Declare Scope js_scope.
Delimit Scope js_scope with js.
Notation "x <- m ;; k" := (bind m (fun x => k))
  (at level 61, m at next level, right associativity) : js_scope.
Notation "m ;; k" := (bind m (fun _ => k))
  (at level 61, right associativity) : js_scope.
Local Open Scope js_scope.

Definition exec {A} (m : Js A) (s : State) : State := snd (m s).
Definition result {A} (m : Js A) (s : State) : Outcome A := fst (m s).

(** [setTimeout (cb, ms)] *)
Definition setTimeout (cb : Callback) (ms : Z) : Js unit :=
  modify (fun s => set_timers (timers s ++ [mkTimer cb ms]) s).

(** [console.error ('API Error:', error)] *)
Definition console_error (e : JsError) : Js unit :=
  modify (fun s => set_console (console s ++ [e]) s).

(** ** Toast notification system

    The toast element is kept as its class name and message; the icon
    markup is a function of the type and is not kept. *)
Definition showToast (message : string) (type : string) : Js unit :=
  container <- gets toast_container ;;
  match container with
  | None => ret tt
  | Some toasts =>
      id <- gets next_toast ;;
      modify (set_toasts
                (toasts ++ [mkToast id ("toast " ++ type) message false])
                (S id)) ;;
      setTimeout (CbToastFade id) 3000
  end.

(** ** API helper

    The request itself ([endpoint], [method], [data]) only selects what the
    server answers; the embedding takes the answer of the network as the
    input.  [fetch] either rejects (transport failure) or resolves with a
    response carrying [ok]; [response.json ()] either rejects (the body is
    not JSON) or resolves with the parsed object.  By the API contract the
    parsed object has a [message] that is a string when present; [payload]
    stands for its other fields, which the code reads only from a response
    that [apiCall] returned, that is an [ok] one. *)

Record Body (P : Type) := mkBody { message : option string; payload : P }.
Arguments mkBody {P} message payload.
Arguments message {P} b.
Arguments payload {P} b.

Inductive JsonOutcome (P : Type) :=
| JsonRejects (e : JsError)
| JsonResolves (b : Body P).
Arguments JsonRejects {P} e.
Arguments JsonResolves {P} b.

Inductive FetchOutcome (P : Type) :=
| FetchRejects (e : JsError)
| FetchResolves (ok : bool) (json : JsonOutcome P).
Arguments FetchRejects {P} e.
Arguments FetchResolves {P} ok json.

Definition apiCall {P} (net : FetchOutcome P) : Js (Body P) :=
  tryCatch
    (match net with
     | FetchRejects e => throw e
     | FetchResolves ok json =>
         match json with
         | JsonRejects e => throw e
         | JsonResolves result =>
             if negb ok
             then throw (mkError "Error" (orElse (message result) "Request failed"))
             else ret result
         end
     end)
    (fun error => console_error error ;; throw error).

(** ** Format number with commas

    [num.toString ().replace (/\B(?=(\d{3})+(?!\d))/g, ",")]: a comma is
    inserted at every position that is not a word boundary and from which
    the maximal run of digits has a length that is a positive multiple of
    three. *)

Definition isDigit (c : ascii) : bool :=
  let n := nat_of_ascii c in (48 <=? n)%nat && (n <=? 57)%nat.

Definition isWordChar (c : ascii) : bool :=
  let n := nat_of_ascii c in
  isDigit c
  || ((65 <=? n)%nat && (n <=? 90)%nat)
  || ((97 <=? n)%nat && (n <=? 122)%nat)
  || (n =? 95)%nat.

Definition isWordOpt (c : option ascii) : bool :=
  match c with Some a => isWordChar a | None => false end.

(** [\B] between [prev] and [next] ([None] is an end of the string). *)
Definition notWordBoundary (prev next : option ascii) : bool :=
  Bool.eqb (isWordOpt prev) (isWordOpt next).

Fixpoint digitRun (s : string) : nat :=
  match s with
  | String c r => if isDigit c then S (digitRun r) else O
  | EmptyString => O
  end.

(** [(?=(\d{3})+(?!\d))] at the start of [s]. *)
Definition groupsOfThreeAhead (s : string) : bool :=
  let n := digitRun s in (3 <=? n)%nat && (Nat.modulo n 3 =? 0)%nat.

Fixpoint insertCommas (prev : option ascii) (s : string) : string :=
  match s with
  | EmptyString => EmptyString
  | String c r =>
      let rest := String c (insertCommas (Some c) r) in
      if notWordBoundary prev (Some c) && groupsOfThreeAhead (String c r)
      then String "," rest
      else rest
  end.

Definition formatNumber (num : Z) : string :=
  insertCommas None (numToString num).

(** ** Update balance display *)
Definition updateBalance (newBalance : Z) : Js unit :=
  navBalance <- gets nav_balance ;;
  match navBalance with
  | Some _ => modify (set_nav_balance (formatNumber newBalance))
  | None => ret tt
  end ;;
  dashBalance <- gets user_balance ;;
  match dashBalance with
  | Some _ => modify (set_user_balance (formatNumber newBalance))
  | None => ret tt
  end.

(** ** Display transactions *)

Record Transaction := mkTx {
  tx_type : string;
  description : string;
  timestamp : string;
  amount : Z
}.

Definition dq : string := String (ascii_of_nat 34) EmptyString.
Definition nl : string := String (ascii_of_nat 10) EmptyString.

Fixpoint spaces (n : nat) : string :=
  match n with
  | O => EmptyString
  | S k => String " " (spaces k)
  end.

(** [String.prototype.toLowerCase] on the ASCII letters; the type tags of
    the API (EARN, SPEND, ...) are ASCII. *)
Definition lowerChar (c : ascii) : ascii :=
  let n := nat_of_ascii c in
  if (65 <=? n)%nat && (n <=? 90)%nat then ascii_of_nat (n + 32) else c.

Fixpoint toLowerCase (s : string) : string :=
  match s with
  | EmptyString => EmptyString
  | String c r => String (lowerChar c) (toLowerCase r)
  end.

Definition upArrow : string :=
  String (ascii_of_nat 226) (String (ascii_of_nat 134) (String (ascii_of_nat 145) EmptyString)).
Definition downArrow : string :=
  String (ascii_of_nat 226) (String (ascii_of_nat 134) (String (ascii_of_nat 147) EmptyString)).

(** The template literal of one transaction item, with the line breaks and
    indentation of the source. *)
Definition renderTransaction (tx : Transaction) : string :=
  let earn := String.eqb (tx_type tx) "EARN" in
  nl ++ spaces 12 ++ "<div class=" ++ dq ++ "transaction-item" ++ dq ++ ">" ++
  nl ++ spaces 16 ++ "<div class=" ++ dq ++ "transaction-info" ++ dq ++ ">" ++
  nl ++ spaces 20 ++ "<div class=" ++ dq ++ "transaction-icon "
     ++ toLowerCase (tx_type tx) ++ dq ++ ">" ++
  nl ++ spaces 24 ++ (if earn then upArrow else downArrow) ++
  nl ++ spaces 20 ++ "</div>" ++
  nl ++ spaces 20 ++ "<div>" ++
  nl ++ spaces 24 ++ "<div class=" ++ dq ++ "transaction-desc" ++ dq ++ ">"
     ++ description tx ++ "</div>" ++
  nl ++ spaces 24 ++ "<div class=" ++ dq ++ "transaction-date" ++ dq ++ ">"
     ++ timestamp tx ++ "</div>" ++
  nl ++ spaces 20 ++ "</div>" ++
  nl ++ spaces 16 ++ "</div>" ++
  nl ++ spaces 16 ++ "<div class=" ++ dq ++ "transaction-amount "
     ++ toLowerCase (tx_type tx) ++ dq ++ ">" ++
  nl ++ spaces 20 ++ (if earn then "+" else "-") ++ formatNumber (amount tx) ++
  nl ++ spaces 16 ++ "</div>" ++
  nl ++ spaces 12 ++ "</div>" ++
  nl ++ spaces 8.

Definition noTransactions : string :=
  "<p class=" ++ dq ++ "text-center text-muted" ++ dq ++ ">No transactions yet</p>".

(** [Array.prototype.slice (start, end)] with its clamping of negative and
    oversized indices. *)
Definition clampIndex (len k : Z) : Z :=
  if k <? 0 then Z.max (len + k) 0 else Z.min k len.

Definition slice {A} (start stop : Z) (l : list A) : list A :=
  let len := Z.of_nat (List.length l) in
  let k := clampIndex len start in
  let final := clampIndex len stop in
  firstn (Z.to_nat (final - k)) (skipn (Z.to_nat k) l).

(** [Array.prototype.join] *)
Fixpoint join (sep : string) (l : list string) : string :=
  match l with
  | [] => EmptyString
  | [x] => x
  | x :: r => x ++ sep ++ join sep r
  end.

Definition displayTransactions (transactions : list Transaction) : Js unit :=
  container <- gets recent_transactions ;;
  match container with
  | None => ret tt
  | Some _ =>
      if (Z.of_nat (List.length transactions) =? 0)
      then modify (set_recent_transactions noTransactions)
      else modify (set_recent_transactions
                     (join EmptyString
                        (map renderTransaction (slice 0 5 transactions))))
  end.

(** ** Check daily bonus *)

Definition ONE_DAY : Z := 24 * 60 * 60 * 1000.

(** [classList.add]: a token list holds a token once. *)
Definition classList_add (c : string) (l : list string) : list string :=
  if existsb (String.eqb c) l then l else l ++ [c].

Definition checkDailyBonus (now : Z) : Js unit :=
  user <- gets userData ;;
  match user with
  | None => ret tt
  | Some u =>
      btn <- gets claim_daily_btn ;;
      match btn with
      | None => ret tt
      | Some b =>
          let lastClaim := last_daily_claim u in
          if (lastClaim =? 0) || (now - lastClaim >=? ONE_DAY)
          then
            modify (set_claim_daily_btn
                      (mkButton false
                                (classList_add "ready" (classList b))
                                "Claim Daily Bonus"))
          else
            let timeLeft := ONE_DAY - (now - lastClaim) in
            let hours := timeLeft / (1000 * 60 * 60) in
            let minutes := Z.rem timeLeft (1000 * 60 * 60) / (1000 * 60) in
            let seconds := Z.rem timeLeft (1000 * 60) / 1000 in
            modify (set_claim_daily_btn
                      (mkButton true
                                (classList b)
                                ("Next Bonus in " ++ numToString hours ++ "h "
                                   ++ numToString minutes ++ "m "
                                   ++ numToString seconds ++ "s"))) ;;
            setTimeout CbCheckDailyBonus 1000
      end
  end.

(** ** Claim daily bonus *)

Record ClaimResult := mkClaim { new_balance : Z; streak : Z }.

(** [document.getElementById ('daily-streak').textContent = v] throws a
    [TypeError] when the element is missing. *)
Definition set_streak_text (v : Z) : Js unit :=
  el <- gets daily_streak_el ;;
  match el with
  | None => throw (mkError "TypeError" "Cannot set properties of null (setting 'textContent')")
  | Some _ => modify (set_daily_streak_el (numToString v))
  end.

Definition claimDailyBonus (net : FetchOutcome ClaimResult) (now : Z) : Js unit :=
  tryCatch
    (result <- apiCall net ;;
     showToast (interpolate (message result)) "success" ;;
     updateBalance (new_balance (payload result)) ;;
     set_streak_text (streak (payload result)) ;;
     checkDailyBonus now)
    (fun error => showToast (err_message error) "error").

(** ** Load dashboard data *)

Definition loadDashboard (profile : FetchOutcome UserData)
           (txResponse : FetchOutcome (list Transaction)) (now : Z) : Js unit :=
  tryCatch
    (profile <- apiCall profile ;;
     let user := payload profile in
     modify (set_userData (Some user)) ;;
     updateBalance (balance user) ;;
     set_streak_text (daily_streak user) ;;
     txResponse <- apiCall txResponse ;;
     displayTransactions (payload txResponse) ;;
     checkDailyBonus now)
    (fun _ => showToast "Error loading dashboard" "error").

(** ** Timer callbacks run by the event loop *)

Definition fadeToast (id : nat) (t : Toast) : Toast :=
  if Nat.eqb (toast_id t) id
  then mkToast (toast_id t) (toast_className t) (toast_message t) true
  else t.

Definition runCallback (cb : Callback) (now : Z) : Js unit :=
  match cb with
  | CbCheckDailyBonus => checkDailyBonus now
  | CbToastFade id =>
      c <- gets toast_container ;;
      n <- gets next_toast ;;
      match c with
      | Some toasts => modify (set_toasts (map (fadeToast id) toasts) n)
      | None => ret tt
      end ;;
      setTimeout (CbToastRemove id) 300
  | CbToastRemove id =>
      c <- gets toast_container ;;
      n <- gets next_toast ;;
      match c with
      | Some toasts =>
          modify (set_toasts
                    (filter (fun t => negb (Nat.eqb (toast_id t) id)) toasts) n)
      | None => ret tt
      end
  end.

Fixpoint removeAt {A} (i : nat) (l : list A) : list A :=
  match i, l with
  | _, [] => []
  | O, _ :: r => r
  | S k, x :: r => x :: removeAt k r
  end.

(** The event loop fires the pending timer at position [i], at time [now]. *)
Definition fire (i : nat) (now : Z) (s : State) : State :=
  match nth_error (timers s) i with
  | None => s
  | Some t =>
      exec (runCallback (callback t) now) (set_timers (removeAt i (timers s)) s)
  end.

(** ** Observations *)

Inductive Mode := CLAIMABLE | COOLDOWN.

Definition modeOf (b : Button) : Mode :=
  if disabled b then COOLDOWN else CLAIMABLE.

Definition ticks (s : State) : list Timer :=
  filter (fun t => match callback t with CbCheckDailyBonus => true | _ => false end)
         (timers s).

(** The two buttons [checkDailyBonus] can leave behind, and the timer it
    registers. *)
Definition claimableButton (b : Button) : Button :=
  mkButton false (classList_add "ready" (classList b)) "Claim Daily Bonus".

Definition countdownText (h m sec : Z) : string :=
  "Next Bonus in " ++ numToString h ++ "h " ++ numToString m ++ "m "
    ++ numToString sec ++ "s".

Definition cooldownButton (b : Button) (timeLeft : Z) : Button :=
  mkButton true (classList b)
           (countdownText (timeLeft / (1000 * 60 * 60))
                          (Z.rem timeLeft (1000 * 60 * 60) / (1000 * 60))
                          (Z.rem timeLeft (1000 * 60) / 1000)).

Definition tick : Timer := mkTimer CbCheckDailyBonus 1000.

(** What the page shows of the daily bonus: the mode and label of the claim
    button. *)
Definition evaluation (s : State) : option (Mode * string) :=
  match claim_daily_btn s with
  | Some b => Some (modeOf b, textContent b)
  | None => None
  end.

(** Everything [checkDailyBonus] must leave alone: the user data and every
    element but the claim button. *)
Definition sameOutsideButton (s s' : State) : Prop :=
  userData s' = userData s /\
  toast_container s' = toast_container s /\
  next_toast s' = next_toast s /\
  nav_balance s' = nav_balance s /\
  user_balance s' = user_balance s /\
  daily_streak_el s' = daily_streak_el s /\
  recent_transactions s' = recent_transactions s /\
  console s' = console s.

(** The answers of the network that are failures of the request, each with
    the message the caller is to see: a transport failure or an unreadable
    body carries the message of the rejection; a response that is not [ok]
    carries the server's [message] when it has a nonempty one, and the
    generic one otherwise. *)
Inductive Fails {P : Type} : FetchOutcome P -> string -> Prop :=
| fails_transport (e : JsError) :
    Fails (FetchRejects e) (err_message e)
| fails_body (ok : bool) (e : JsError) :
    Fails (FetchResolves ok (JsonRejects e)) (err_message e)
| fails_status_message (b : Body P) (m : string) :
    message b = Some m -> m <> EmptyString ->
    Fails (FetchResolves false (JsonResolves b)) m
| fails_status_generic (b : Body P) :
    message b = None \/ message b = Some EmptyString ->
    Fails (FetchResolves false (JsonResolves b)) "Request failed".

(** ** Sample pages *)

Definition page_claimed_at (last : Z) : State :=
  mkState (Some (mkUser 1000 3 last)) (Some []) 0%nat
          (Some "1,000") (Some "1,000") (Some "3") (Some EmptyString)
          (Some (mkButton true [] EmptyString)) [] [].

Definition page_never_claimed : State := page_claimed_at 0.

Definition sample_now : Z := 1700000000000.

Definition claim_accepted : FetchOutcome ClaimResult :=
  FetchResolves true
    (JsonResolves (mkBody (Some "Daily bonus claimed!") (mkClaim 1500 4))).

Definition claim_rejected : FetchOutcome ClaimResult :=
  FetchResolves false
    (JsonResolves (mkBody (Some "Already claimed today") (mkClaim 0 0))).

(** ** Observations on formatted numbers and toasts *)

(** A string of decimal digits only. *)
Fixpoint allDigits (s : string) : bool :=
  match s with
  | EmptyString => true
  | String c r => isDigit c && allDigits r
  end.

(** The string without its commas. *)
Fixpoint removeCommas (s : string) : string :=
  match s with
  | EmptyString => EmptyString
  | String c r =>
      if Ascii.eqb c "," then removeCommas r else String c (removeCommas r)
  end.

(** The strings of a list one after the other. *)
Definition flatten (l : list string) : string :=
  fold_right String.append EmptyString l.

(** The domain on which the embedding prints what the code prints: a
    number is an integer that a JavaScript number holds exactly (up to
    [Number.MAX_SAFE_INTEGER]; beyond it [toString] rounds the digits, and
    from 1e21 on it writes an exponent), and a type tag is made of ASCII
    characters (on the others [String.prototype.toLowerCase] can change
    more than the letters A to Z). *)
Definition safeInteger (n : Z) : Prop :=
  - 9007199254740991 <= n <= 9007199254740991.

Fixpoint asciiOnly (s : string) : bool :=
  match s with
  | EmptyString => true
  | String c r => (nat_of_ascii c <? 128)%nat && asciiOnly r
  end.

Definition plainTransaction (tx : Transaction) : Prop :=
  asciiOnly (tx_type tx) = true /\ safeInteger (amount tx).

(** Every toast in the container was created before the next identifier to
    be handed out. *)
Definition toastsFresh (s : State) : Prop :=
  forall toasts,
    toast_container s = Some toasts ->
    Forall (fun t => (toast_id t < next_toast s)%nat) toasts.

(** ** Requests, navigation and the other pages

    The dashboard functions above leave the request implicit.  The other
    handlers are told apart by what they send and where they navigate, so
    their state adds to the shared [State] ([dom]) the log of the requests
    handed to [fetch], the navigations registered with [setTimeout] and the
    variables and elements of their own page ([page]).  The body of a
    request is kept as the object given to [JSON.stringify]. *)

Inductive Field :=
| FStr (s : string)
| FNum (n : Z).

Record Request := mkRequest {
  req_endpoint : string;
  req_method : string;
  req_data : option (list (string * Field))
}.

Record Navigation := mkNavigation { nav_href : string; nav_delay : Z }.

Record Env (X : Type) := mkEnv {
  dom : State;
  sent : list Request;
  navigations : list Navigation;
  page : X
}.
Arguments mkEnv {X} dom sent navigations page.
Arguments dom {X} e.
Arguments sent {X} e.
Arguments navigations {X} e.
Arguments page {X} e.

Definition JsX (X A : Type) : Type := Env X -> Outcome A * Env X.

Section PageMonad.
Context {X : Type}.

Definition retX {A} (a : A) : JsX X A := fun e => (Normal a, e).

Definition bindX {A B} (m : JsX X A) (k : A -> JsX X B) : JsX X B :=
  fun e =>
    match m e with
    | (Normal a, e') => k a e'
    | (Thrown err, e') => (Thrown err, e')
    end.

Definition throwX {A} (err : JsError) : JsX X A := fun e => (Thrown err, e).

Definition tryCatchX {A} (body : JsX X A) (handler : JsError -> JsX X A)
  : JsX X A :=
  fun e =>
    match body e with
    | (Normal a, e') => (Normal a, e')
    | (Thrown err, e') => handler err e'
    end.

(** A call of an [async] function that is not awaited: the caller goes on
    whatever happens in it.  Its continuation is run here at once, the
    state it reaches being the one the page has when nothing else happens
    in between. *)
Definition detached {A} (m : JsX X A) : JsX X unit :=
  fun e => (Normal tt, snd (m e)).

Definition getsX {A} (f : Env X -> A) : JsX X A := fun e => (Normal (f e), e).

Definition modifyX (f : Env X -> Env X) : JsX X unit :=
  fun e => (Normal tt, f e).

Definition set_page (p : X) (e : Env X) : Env X :=
  mkEnv (dom e) (sent e) (navigations e) p.

(** Code written against the shared elements runs on [dom]. *)
Definition liftDom {A} (m : Js A) : JsX X A :=
  fun e =>
    (fst (m (dom e)), mkEnv (snd (m (dom e))) (sent e) (navigations e) (page e)).

Definition execX {A} (m : JsX X A) (e : Env X) : Env X := snd (m e).
Definition resultX {A} (m : JsX X A) (e : Env X) : Outcome A := fst (m e).

(** [apiCall (endpoint, method, data)] with the request it makes. *)
Definition apiCallX {P} (endpoint method : string)
           (data : option (list (string * Field)))
           (net : FetchOutcome P) : JsX X (Body P) :=
  bindX (modifyX (fun e =>
           mkEnv (dom e) (sent e ++ [mkRequest endpoint method data])
                 (navigations e) (page e)))
        (fun _ => liftDom (apiCall net)).

(** [setTimeout (() => { window.location.href = href }, ms)] *)
Definition navigateLater (href : string) (ms : Z) : JsX X unit :=
  modifyX (fun e =>
    mkEnv (dom e) (sent e) (navigations e ++ [mkNavigation href ms]) (page e)).
End PageMonad.

Declare Scope jsx_scope.
Delimit Scope jsx_scope with jsx.
Notation "x <- m ;; k" := (bindX m (fun x => k))
  (at level 61, m at next level, right associativity) : jsx_scope.
Notation "m ;; k" := (bindX m (fun _ => k))
  (at level 61, right associativity) : jsx_scope.

(** ** Logout *)
Definition logout {X} (net : FetchOutcome unit) : JsX X unit :=
  tryCatchX
    (_ <- apiCallX "/auth/logout" "POST" None net ;;
     liftDom (showToast "Logged out successfully" "info") ;;
     navigateLater "/" 500)%jsx
    (fun error => liftDom (showToast (err_message error) "error")).

(** A missing element makes the assignment to one of its properties, or
    the reading of one, throw a [TypeError]; the text of its message is the
    engine's. *)
Definition nullTypeError (property : string) : JsError :=
  mkError "TypeError"
          ("Cannot set properties of null (setting '" ++ property ++ "')").

Definition nullReadError (property : string) : JsError :=
  mkError "TypeError"
          ("Cannot read properties of null (reading '" ++ property ++ "')").

(** ** Dashboard: claim welcome bonus

    The page variable is the [display] style of the welcome bonus card,
    [None] when the card is not in the page. *)
Definition claimWelcomeBonus (net : FetchOutcome Z) : JsX (option string) unit :=
  tryCatchX
    (result <- apiCallX "/user/claim-welcome" "POST" None net ;;
     liftDom (showToast (interpolate (message result)) "success") ;;
     liftDom (updateBalance (payload result)) ;;
     card <- getsX page ;;
     match card with
     | None => throwX (nullReadError "style")
     | Some _ => modifyX (set_page (Some "none"))
     end)%jsx
    (fun error => liftDom (showToast (err_message error) "error")).

(** ** Auth page *)

Record AuthPage := mkAuth {
  isSignup : bool;
  authTitle : option string;
  authButton : option string;
  authToggle : option string;
  usernameField : option string
}.

Definition toggleToLogin : string :=
  "Already have an account? <button type=" ++ dq ++ "button" ++ dq
  ++ " onclick=" ++ dq ++ "toggleAuthMode()" ++ dq
  ++ " class=" ++ dq ++ "auth-toggle-btn" ++ dq ++ ">Log In</button>".

Definition toggleToSignup : string :=
  "Don't have an account? <button type=" ++ dq ++ "button" ++ dq
  ++ " onclick=" ++ dq ++ "toggleAuthMode()" ++ dq
  ++ " class=" ++ dq ++ "auth-toggle-btn" ++ dq ++ ">Sign Up</button>".

(** The four assignments of one branch of [toggleMode], in order; each
    throws on a missing element, keeping the earlier ones. *)
Definition assignAuthTitle (v : string) : JsX AuthPage unit :=
  (p <- getsX page ;;
   match authTitle p with
   | None => throwX (nullTypeError "textContent")
   | Some _ =>
       modifyX (set_page (mkAuth (isSignup p) (Some v) (authButton p)
                                 (authToggle p) (usernameField p)))
   end)%jsx.

Definition assignAuthButton (v : string) : JsX AuthPage unit :=
  (p <- getsX page ;;
   match authButton p with
   | None => throwX (nullTypeError "textContent")
   | Some _ =>
       modifyX (set_page (mkAuth (isSignup p) (authTitle p) (Some v)
                                 (authToggle p) (usernameField p)))
   end)%jsx.

Definition assignAuthToggle (v : string) : JsX AuthPage unit :=
  (p <- getsX page ;;
   match authToggle p with
   | None => throwX (nullTypeError "innerHTML")
   | Some _ =>
       modifyX (set_page (mkAuth (isSignup p) (authTitle p) (authButton p)
                                 (Some v) (usernameField p)))
   end)%jsx.

Definition assignUsernameDisplay (v : string) : JsX AuthPage unit :=
  (p <- getsX page ;;
   match usernameField p with
   | None =>
       throwX (nullReadError "style")
   | Some _ =>
       modifyX (set_page (mkAuth (isSignup p) (authTitle p) (authButton p)
                                 (authToggle p) (Some v)))
   end)%jsx.

Definition toggleMode : JsX AuthPage unit :=
  (modifyX (fun e =>
     let p := page e in
     set_page (mkAuth (negb (isSignup p)) (authTitle p) (authButton p)
                      (authToggle p) (usernameField p)) e) ;;
   p <- getsX page ;;
   if isSignup p
   then
     assignAuthTitle "Join the Economy" ;;
     assignAuthButton "Create Account" ;;
     assignAuthToggle toggleToLogin ;;
     assignUsernameDisplay "block"
   else
     assignAuthTitle "Welcome Back" ;;
     assignAuthButton "Log In" ;;
     assignAuthToggle toggleToSignup ;;
     assignUsernameDisplay "none")%jsx.

(** [String.prototype.includes] *)
Fixpoint includes (needle hay : string) : bool :=
  String.prefix needle hay
  || match hay with
     | EmptyString => false
     | String _ r => includes needle r
     end.

(** The start of the auth page: [isSignup] is read from
    [window.location.search], and [toggleMode] is called when it is set. *)
Definition authInit (search : string) : JsX AuthPage unit :=
  (modifyX (fun e =>
     let p := page e in
     set_page (mkAuth (includes "mode=signup" search) (authTitle p)
                      (authButton p) (authToggle p) (usernameField p)) e) ;;
   p <- getsX page ;;
   if isSignup p then toggleMode else retX tt)%jsx.

(** ** Earn page *)

Record Task := mkTask {
  task_id : Z;
  task_type : string;
  task_title : string;
  task_description : string;
  task_reward : Z
}.

Record FilterBtn := mkFilterBtn {
  data_filter : option string;
  btn_classes : list string
}.

Record EarnPage := mkEarn {
  currentFilter : string;
  filter_btns : list FilterBtn;
  tasks_container : option string
}.

Definition bytes (l : list nat) : string :=
  fold_right (fun n s => String (ascii_of_nat n) s) EmptyString l.

(** The members every object literal inherits from [Object.prototype]. *)
Definition objectPrototypeMembers : list string :=
  ["constructor"; "hasOwnProperty"; "isPrototypeOf"; "propertyIsEnumerable";
   "toLocaleString"; "toString"; "valueOf"; "__proto__";
   "__defineGetter__"; "__defineSetter__"; "__lookupGetter__";
   "__lookupSetter__"].

Definition noTasks : string :=
  "<p class=" ++ dq ++ "text-center" ++ dq ++ ">No tasks available</p>".

(** [classList.toggle (token, force)] *)
Definition classList_toggle (c : string) (force : bool) (l : list string)
  : list string :=
  if force then classList_add c l
  else filter (fun x => negb (String.eqb c x)) l.

Section TaskCards.
(** [icons[type]] finds an inherited member for the names above; it is
    truthy, and what the template prints for it is the engine's text
    for that member. *)
Variable inheritedText : string -> string.

Definition getTaskIcon (type : string) : string :=
  if String.eqb type "VIDEO" then bytes [226; 150; 182]%nat
  else if String.eqb type "CPA" then bytes [240; 159; 147; 177]%nat
  else if String.eqb type "SURVEY" then bytes [226; 156; 147]%nat
  else if existsb (String.eqb type) objectPrototypeMembers
       then inheritedText type
       else bytes [226; 128; 162]%nat.

Definition renderTask (task : Task) : string :=
  nl ++ spaces 12 ++ "<div class=" ++ dq ++ "task-card" ++ dq ++ ">" ++
  nl ++ spaces 16 ++ "<div class=" ++ dq ++ "task-header" ++ dq ++ ">" ++
  nl ++ spaces 20 ++ "<div class=" ++ dq ++ "task-type-icon "
     ++ toLowerCase (task_type task) ++ dq ++ ">" ++
  nl ++ spaces 24 ++ getTaskIcon (task_type task) ++
  nl ++ spaces 20 ++ "</div>" ++
  nl ++ spaces 20 ++ "<div class=" ++ dq ++ "task-reward" ++ dq ++ ">+"
     ++ numToString (task_reward task) ++ " GC</div>" ++
  nl ++ spaces 16 ++ "</div>" ++
  nl ++ spaces 16 ++ "<h3 class=" ++ dq ++ "task-title" ++ dq ++ ">"
     ++ task_title task ++ "</h3>" ++
  nl ++ spaces 16 ++ "<p class=" ++ dq ++ "task-description" ++ dq ++ ">"
     ++ task_description task ++ "</p>" ++
  nl ++ spaces 16 ++ "<button class=" ++ dq ++ "btn btn-primary btn-block" ++ dq
     ++ " onclick=" ++ dq ++ "completeTask(" ++ numToString (task_id task)
     ++ ")" ++ dq ++ ">" ++
  nl ++ spaces 20 ++ "Start Task" ++
  nl ++ spaces 16 ++ "</button>" ++
  nl ++ spaces 12 ++ "</div>" ++
  nl ++ spaces 8.

Definition set_tasks_container (v : string) (e : Env EarnPage) : Env EarnPage :=
  set_page (mkEarn (currentFilter (page e)) (filter_btns (page e)) (Some v)) e.

Definition displayTasks (tasks : list Task) : JsX EarnPage unit :=
  (p <- getsX page ;;
   match tasks_container p with
   | None => retX tt
   | Some _ =>
       let filteredTasks :=
         if String.eqb (currentFilter p) "ALL" then tasks
         else filter (fun t => String.eqb (task_type t) (currentFilter p)) tasks in
       if (Z.of_nat (List.length filteredTasks) =? 0)
       then modifyX (set_tasks_container noTasks)
       else modifyX (set_tasks_container
                       (join EmptyString (map renderTask filteredTasks)))
   end)%jsx.

Definition loadTasks (net : FetchOutcome (list Task)) : JsX EarnPage unit :=
  tryCatchX
    (result <- apiCallX "/tasks" "GET" None net ;;
     displayTasks (payload result))%jsx
    (fun _ => liftDom (showToast "Error loading tasks" "error")).

Definition setFilter (filter : string) (net : FetchOutcome (list Task))
  : JsX EarnPage unit :=
  (modifyX (fun e =>
     set_page (mkEarn filter (filter_btns (page e)) (tasks_container (page e))) e) ;;
   modifyX (fun e =>
     set_page
       (mkEarn (currentFilter (page e))
               (map (fun btn =>
                       mkFilterBtn (data_filter btn)
                         (classList_toggle "active"
                            (match data_filter btn with
                             | Some f => String.eqb f filter
                             | None => false
                             end)
                            (btn_classes btn)))
                    (filter_btns (page e)))
               (tasks_container (page e))) e) ;;
   detached (loadTasks net))%jsx.

Definition completeTask (taskId : Z) (net : FetchOutcome Z)
           (reload : FetchOutcome (list Task)) : JsX EarnPage unit :=
  tryCatchX
    (result <- apiCallX ("/tasks/" ++ numToString taskId ++ "/complete")
                        "POST" None net ;;
     liftDom (showToast (interpolate (message result)) "success") ;;
     liftDom (updateBalance (payload result)) ;;
     detached (loadTasks reload))%jsx
    (fun error => liftDom (showToast (err_message error) "error")).
End TaskCards.

(** ** Shop page *)

Record ShopItem := mkItem {
  item_id : Z;
  item_title : string;
  item_imageUrl : string;
  item_category : string;
  item_price : Z
}.

(** The page variables: the items container and the messages shown by
    [confirm]. *)
Record ShopPage := mkShop {
  shop_items_container : option string;
  confirms : list string
}.

Definition renderShopItem (item : ShopItem) : string :=
  nl ++ spaces 12 ++ "<div class=" ++ dq ++ "shop-item-card" ++ dq ++ ">" ++
  nl ++ spaces 16 ++ "<div class=" ++ dq ++ "shop-item-image" ++ dq ++ ">" ++
  nl ++ spaces 20 ++ "<img src=" ++ dq ++ item_imageUrl item ++ dq
     ++ " alt=" ++ dq ++ item_title item ++ dq ++ ">" ++
  nl ++ spaces 20 ++ "<div class=" ++ dq ++ "shop-item-category" ++ dq ++ ">"
     ++ item_category item ++ "</div>" ++
  nl ++ spaces 16 ++ "</div>" ++
  nl ++ spaces 16 ++ "<h3 class=" ++ dq ++ "shop-item-title" ++ dq ++ ">"
     ++ item_title item ++ "</h3>" ++
  nl ++ spaces 16 ++ "<div class=" ++ dq ++ "shop-item-footer" ++ dq ++ ">" ++
  nl ++ spaces 20 ++ "<div class=" ++ dq ++ "shop-item-price" ++ dq ++ ">"
     ++ formatNumber (item_price item) ++ " GC</div>" ++
  nl ++ spaces 20 ++ "<button class=" ++ dq ++ "shop-buy-btn" ++ dq
     ++ " onclick=" ++ dq ++ "purchaseItem(" ++ numToString (item_id item)
     ++ ", '" ++ item_title item ++ "', " ++ numToString (item_price item)
     ++ ")" ++ dq ++ ">" ++
  nl ++ spaces 24 ++ bytes [240; 159; 155; 146]%nat ++
  nl ++ spaces 20 ++ "</button>" ++
  nl ++ spaces 16 ++ "</div>" ++
  nl ++ spaces 12 ++ "</div>" ++
  nl ++ spaces 8.

Definition displayShopItems (items : list ShopItem) : JsX ShopPage unit :=
  (p <- getsX page ;;
   match shop_items_container p with
   | None => retX tt
   | Some _ =>
       modifyX (set_page
                  (mkShop (Some (join EmptyString (map renderShopItem items)))
                          (confirms p)))
   end)%jsx.

Definition loadShopItems (net : FetchOutcome (list ShopItem)) : JsX ShopPage unit :=
  tryCatchX
    (result <- apiCallX "/shop/items" "GET" None net ;;
     displayShopItems (payload result))%jsx
    (fun _ => liftDom (showToast "Error loading shop" "error")).

(** [confirm (message)]: the message is shown and the user's answer is
    the input [answer]. *)
Definition confirm (message : string) (answer : bool) : JsX ShopPage bool :=
  (modifyX (fun e =>
     set_page (mkShop (shop_items_container (page e))
                      (confirms (page e) ++ [message])) e) ;;
   retX answer)%jsx.

Definition purchaseItem (itemId : Z) (title : string) (price : Z)
           (answer : bool) (net : FetchOutcome Z) : JsX ShopPage unit :=
  (ok <- confirm ("Purchase " ++ title ++ " for " ++ formatNumber price ++ " GC?")
                 answer ;;
   if negb ok then retX tt
   else
     tryCatchX
       (result <- apiCallX ("/shop/purchase/" ++ numToString itemId) "POST"
                           (Some [("quantity", FNum 1)]) net ;;
        liftDom (showToast (interpolate (message result)) "success") ;;
        liftDom (updateBalance (payload result)))
       (fun error => liftDom (showToast (err_message error) "error")))%jsx.

(** The page after one more request has been handed to [fetch]. *)
Definition requested {X} (r : Request) (e : Env X) : Env X :=
  mkEnv (dom e) (sent e ++ [r]) (navigations e) (page e).


(** The two views of the auth form, and a form that has its four elements. *)
Definition loginView : AuthPage :=
  mkAuth false (Some "Welcome Back") (Some "Log In") (Some toggleToSignup)
         (Some "none").

Definition signupView : AuthPage :=
  mkAuth true (Some "Join the Economy") (Some "Create Account")
         (Some toggleToLogin) (Some "block").

Definition authElementsPresent (p : AuthPage) : Prop :=
  authTitle p <> None /\ authButton p <> None /\
  authToggle p <> None /\ usernameField p <> None.

(** The tasks the current filter lets through, and what the tasks
    container holds for them. *)
Definition shownTasks (flt : string) (tasks : list Task) : list Task :=
  if String.eqb flt "ALL" then tasks
  else filter (fun t => String.eqb (task_type t) flt) tasks.

Definition tasksHtml (inheritedText : string -> string) (shown : list Task)
  : string :=
  match shown with
  | [] => noTasks
  | _ :: _ => flatten (map (renderTask inheritedText) shown)
  end.

Definition tasksRequest : Request := mkRequest "/tasks" "GET" None.

(** * Properties *)

(** ** Arithmetic of the countdown *)

Lemma ONE_DAY_value : ONE_DAY = 86400000.
Proof. reflexivity. Qed.

Lemma countdown_buckets (t : Z) :
  0 < t ->
  let h := t / (1000 * 60 * 60) in
  let m := Z.rem t (1000 * 60 * 60) / (1000 * 60) in
  let sec := Z.rem t (1000 * 60) / 1000 in
  0 <= h /\ 0 <= m <= 59 /\ 0 <= sec <= 59 /\
  h * 3600000 + m * 60000 + sec * 1000 <= t < h * 3600000 + m * 60000 + sec * 1000 + 1000.
Proof.
  intros Ht h m sec. subst h m sec.
  rewrite !Z.rem_mod_nonneg by lia.
  change (1000 * 60 * 60) with 3600000. change (1000 * 60) with 60000.
  Z.div_mod_to_equations. lia.
Qed.

(** ** What one run of [checkDailyBonus] does *)

Lemma checkDailyBonus_no_user (now : Z) (s : State) :
  userData s = None -> checkDailyBonus now s = (Normal tt, s).
Proof. intros H. cbv [checkDailyBonus bind gets]. now rewrite H. Qed.

Lemma checkDailyBonus_no_button (now : Z) (s : State) :
  claim_daily_btn s = None -> checkDailyBonus now s = (Normal tt, s).
Proof.
  intros H. cbv [checkDailyBonus bind gets].
  destruct (userData s); [now rewrite H | reflexivity].
Qed.

Lemma checkDailyBonus_claimable (now : Z) (s : State) (u : UserData) (b : Button) :
  userData s = Some u -> claim_daily_btn s = Some b ->
  (last_daily_claim u =? 0) || (now - last_daily_claim u >=? ONE_DAY) = true ->
  checkDailyBonus now s = (Normal tt, set_claim_daily_btn (claimableButton b) s).
Proof.
  intros Hu Hb Hc. cbv [checkDailyBonus bind gets].
  rewrite Hu, Hb, Hc. reflexivity.
Qed.

Lemma checkDailyBonus_cooldown (now : Z) (s : State) (u : UserData) (b : Button) :
  userData s = Some u -> claim_daily_btn s = Some b ->
  (last_daily_claim u =? 0) || (now - last_daily_claim u >=? ONE_DAY) = false ->
  checkDailyBonus now s =
  (Normal tt,
   set_timers (timers s ++ [tick])
     (set_claim_daily_btn
        (cooldownButton b (ONE_DAY - (now - last_daily_claim u))) s)).
Proof.
  intros Hu Hb Hc. cbv [checkDailyBonus bind gets].
  rewrite Hu, Hb, Hc. reflexivity.
Qed.

Lemma claimable_test (now last : Z) :
  (last =? 0) || (now - last >=? ONE_DAY) = true <->
  (last = 0 \/ now - last >= 86400000).
Proof.
  rewrite orb_true_iff, Z.eqb_eq, Z.geb_le, ONE_DAY_value. lia.
Qed.

Lemma cooldown_test (now last : Z) :
  (last =? 0) || (now - last >=? ONE_DAY) = false <->
  (last <> 0 /\ now - last < 86400000).
Proof.
  rewrite orb_false_iff, Z.eqb_neq, ONE_DAY_value.
  unfold Z.geb. destruct (now - last ?= 86400000) eqn:E.
  - apply Z.compare_eq in E. split; [intros [_ H]; discriminate | lia].
  - rewrite Z.compare_lt_iff in E. split; [intros []; split; [assumption | lia] | intros []; split; [assumption | reflexivity]].
  - rewrite Z.compare_gt_iff in E. split; [intros [_ H]; discriminate | lia].
Qed.

Lemma modeOf_claimableButton (b : Button) : modeOf (claimableButton b) = CLAIMABLE.
Proof. reflexivity. Qed.

Lemma modeOf_cooldownButton (b : Button) (t : Z) : modeOf (cooldownButton b t) = COOLDOWN.
Proof. reflexivity. Qed.

Lemma classList_add_In (c : string) (l : list string) : In c (classList_add c l).
Proof.
  unfold classList_add. destruct (existsb (String.eqb c) l) eqn:E.
  - apply existsb_exists in E. destruct E as (x & Hx & Heq).
    apply String.eqb_eq in Heq. now subst.
  - apply in_or_app. right. now left.
Qed.

(** Case analysis on the test of [checkDailyBonus], for a hydrated page
    that has the button. *)
Lemma checkDailyBonus_cases (now : Z) (s : State) (u : UserData) (b : Button) :
  userData s = Some u -> claim_daily_btn s = Some b ->
  ((last_daily_claim u = 0 \/ now - last_daily_claim u >= 86400000) /\
   checkDailyBonus now s = (Normal tt, set_claim_daily_btn (claimableButton b) s))
  \/
  ((last_daily_claim u <> 0 /\ now - last_daily_claim u < 86400000) /\
   checkDailyBonus now s =
   (Normal tt,
    set_timers (timers s ++ [tick])
      (set_claim_daily_btn
         (cooldownButton b (ONE_DAY - (now - last_daily_claim u))) s))).
Proof.
  intros Hu Hb.
  destruct ((last_daily_claim u =? 0) || (now - last_daily_claim u >=? ONE_DAY)) eqn:E.
  - left. split; [now apply claimable_test |].
    now apply checkDailyBonus_claimable with (u := u).
  - right. split; [now apply cooldown_test |].
    now apply checkDailyBonus_cooldown.
Qed.

(** ** C1: when the claim control is enabled *)

(** C1. On a hydrated page, [checkDailyBonus] leaves the claim button
    enabled (CLAIMABLE, marked ready, reading Claim Daily Bonus) if and only
    if [last_daily_claim] is 0 or at least 86 400 000 ms have passed since
    it; in particular the sentinel 0 is CLAIMABLE whatever [now] is, and an
    elapsed time of exactly 86 400 000 ms is CLAIMABLE. *)
Theorem claimable_iff_sentinel_or_day_elapsed
        (now : Z) (s : State) (u : UserData) (b : Button) :
  userData s = Some u -> claim_daily_btn s = Some b ->
  exists b',
    claim_daily_btn (exec (checkDailyBonus now) s) = Some b' /\
    (modeOf b' = CLAIMABLE <->
     (last_daily_claim u = 0 \/ now - last_daily_claim u >= 86400000)) /\
    (modeOf b' = CLAIMABLE ->
     disabled b' = false /\ In "ready" (classList b') /\
     textContent b' = "Claim Daily Bonus") /\
    (last_daily_claim u = 0 -> modeOf b' = CLAIMABLE) /\
    (now - last_daily_claim u = 86400000 -> modeOf b' = CLAIMABLE).
Proof.
  intros Hu Hb. unfold exec.
  destruct (checkDailyBonus_cases now s u b Hu Hb) as [[Hc ->] | [Hc ->]];
    cbn [snd].
  - exists (claimableButton b). split; [reflexivity |].
    rewrite modeOf_claimableButton.
    split; [tauto |].
    split; [intros _; repeat split; apply classList_add_In |].
    split; reflexivity.
  - exists (cooldownButton b (ONE_DAY - (now - last_daily_claim u))).
    split; [reflexivity |].
    rewrite modeOf_cooldownButton.
    split; [split; [discriminate | lia] |].
    split; [discriminate |].
    split; intros; lia.
Qed.

Lemma claimable_iff_sentinel_or_day_elapsed_witness :
  exists b',
    claim_daily_btn (exec (checkDailyBonus sample_now) (page_claimed_at (sample_now - 86400000)))
    = Some b' /\ modeOf b' = CLAIMABLE.
Proof.
  destruct (claimable_iff_sentinel_or_day_elapsed sample_now
              (page_claimed_at (sample_now - 86400000))
              (mkUser 1000 3 (sample_now - 86400000))
              (mkButton true [] EmptyString) eq_refl eq_refl)
    as (b' & Hb' & _ & _ & _ & Hday).
  exists b'. split; [exact Hb' | apply Hday; reflexivity].
Defined.

(** ** C2, C9, C7: the countdown *)

(** The countdown a cooldown button shows, for a positive time left: the
    code's buckets are the floor-division buckets. *)
Lemma cooldownButton_text (b : Button) (t : Z) :
  0 < t ->
  textContent (cooldownButton b t) =
  countdownText (t / 3600000) ((t mod 3600000) / 60000) ((t mod 60000) / 1000).
Proof.
  intros Ht. unfold cooldownButton. cbn [textContent].
  rewrite !Z.rem_mod_nonneg by lia. reflexivity.
Qed.

(** C2 as stated fails on the sentinel: a page that never claimed
    ([last_daily_claim = 0]) evaluated at [now = 1000] has
    [0 < now - last_daily_claim < 86400000] and is CLAIMABLE. *)
Lemma cooldown_range_sentinel_counterexample :
  0 < 1000 - 0 < 86400000 /\
  userData page_never_claimed = Some (mkUser 1000 3 0) /\
  claim_daily_btn (exec (checkDailyBonus 1000) page_never_claimed)
  = Some (mkButton false ["ready"] "Claim Daily Bonus") /\
  modeOf (mkButton false ["ready"] "Claim Daily Bonus") <> COOLDOWN.
Proof.
  split; [lia |]. split; [reflexivity |]. split; [reflexivity | discriminate].
Qed.

(** C2 (amended). For every [now] and every nonzero [last_daily_claim] with
    [0 < now - last_daily_claim < 86400000], [checkDailyBonus] leaves the
    button in COOLDOWN with a countdown [h]h [m]m [sec]s whose components
    are the floor-division buckets of
    [remaining = 86400000 - (now - last_daily_claim)], are all nonnegative
    and satisfy
    [h*3600000 + m*60000 + sec*1000 <= remaining < h*3600000 + m*60000 + sec*1000 + 1000]. *)
Theorem cooldown_countdown_floor
        (now : Z) (s : State) (u : UserData) (b : Button) :
  userData s = Some u -> claim_daily_btn s = Some b ->
  last_daily_claim u <> 0 ->
  0 < now - last_daily_claim u < 86400000 ->
  let remaining := 86400000 - (now - last_daily_claim u) in
  exists b' h m sec,
    claim_daily_btn (exec (checkDailyBonus now) s) = Some b' /\
    modeOf b' = COOLDOWN /\
    textContent b' = countdownText h m sec /\
    h = remaining / 3600000 /\
    m = (remaining mod 3600000) / 60000 /\
    sec = (remaining mod 60000) / 1000 /\
    0 <= h /\ 0 <= m /\ 0 <= sec /\
    h * 3600000 + m * 60000 + sec * 1000 <= remaining /\
    remaining < h * 3600000 + m * 60000 + sec * 1000 + 1000.
Proof.
  intros Hu Hb Hnz Hd remaining. unfold exec.
  destruct (checkDailyBonus_cases now s u b Hu Hb) as [[Hc _] | [_ ->]];
    [lia |]. cbn [snd].
  rewrite ONE_DAY_value. fold remaining.
  assert (Hr : 0 < remaining) by (unfold remaining; lia).
  exists (cooldownButton b remaining), (remaining / 3600000),
    ((remaining mod 3600000) / 60000), ((remaining mod 60000) / 1000).
  split; [reflexivity |]. split; [reflexivity |].
  split; [now apply cooldownButton_text |].
  repeat (split; [reflexivity |]).
  pose proof (countdown_buckets remaining Hr) as H. cbv zeta in H.
  rewrite !Z.rem_mod_nonneg in H by lia.
  change (1000 * 60 * 60) with 3600000 in H. change (1000 * 60) with 60000 in H.
  lia.
Qed.

Lemma cooldown_countdown_floor_witness :
  exists b',
    claim_daily_btn
      (exec (checkDailyBonus sample_now) (page_claimed_at (sample_now - 5025500)))
    = Some b' /\
    textContent b' = "Next Bonus in 22h 36m 14s".
Proof.
  destruct (cooldown_countdown_floor sample_now
              (page_claimed_at (sample_now - 5025500))
              (mkUser 1000 3 (sample_now - 5025500))
              (mkButton true [] EmptyString) eq_refl eq_refl)
    as (b' & h & m & sec & Hb' & _ & Ht & -> & -> & -> & _).
  - discriminate.
  - unfold sample_now; cbn [last_daily_claim]; lia.
  - exists b'. split; [exact Hb' | rewrite Ht; reflexivity].
Defined.

(** C9. Whenever [checkDailyBonus] ends in COOLDOWN with
    [0 < now - last_daily_claim < 86400000], the displayed components are
    bounded above: hours at most 23, minutes and seconds at most 59. *)
Theorem cooldown_components_bounded
        (now : Z) (s : State) (u : UserData) (b b' : Button) :
  userData s = Some u -> claim_daily_btn s = Some b ->
  claim_daily_btn (exec (checkDailyBonus now) s) = Some b' ->
  modeOf b' = COOLDOWN ->
  0 < now - last_daily_claim u < 86400000 ->
  exists h m sec,
    textContent b' = countdownText h m sec /\
    h = (86400000 - (now - last_daily_claim u)) / 3600000 /\
    m = ((86400000 - (now - last_daily_claim u)) mod 3600000) / 60000 /\
    sec = ((86400000 - (now - last_daily_claim u)) mod 60000) / 1000 /\
    h <= 23 /\ m <= 59 /\ sec <= 59.
Proof.
  intros Hu Hb Hb' Hmode Hd. unfold exec in Hb'.
  destruct (checkDailyBonus_cases now s u b Hu Hb) as [[_ E] | [_ E]];
    rewrite E in Hb';
    cbn [snd claim_daily_btn set_claim_daily_btn set_timers] in Hb';
    assert (Heq : b' = _) by (symmetry; exact (f_equal (fun o => match o with Some x => x | None => b' end) Hb'));
    clear Hb'; subst b'; [discriminate Hmode |].
  rewrite ONE_DAY_value.
  set (remaining := 86400000 - (now - last_daily_claim u)).
  assert (Hr : 0 < remaining < 86400000) by (unfold remaining; lia).
  exists (remaining / 3600000), ((remaining mod 3600000) / 60000),
    ((remaining mod 60000) / 1000).
  split; [apply cooldownButton_text; lia |].
  repeat (split; [reflexivity |]).
  Z.div_mod_to_equations. lia.
Qed.

Lemma cooldown_components_bounded_witness :
  exists h m sec,
    countdownText 0 0 0 = countdownText h m sec /\
    h <= 23 /\ m <= 59 /\ sec <= 59.
Proof.
  destruct (cooldown_components_bounded sample_now
              (page_claimed_at (sample_now - 86399001))
              (mkUser 1000 3 (sample_now - 86399001))
              (mkButton true [] EmptyString)
              (mkButton true [] (countdownText 0 0 0))
              eq_refl eq_refl eq_refl eq_refl)
    as (h & m & sec & Ht & _ & _ & _ & Hh & Hm & Hs).
  - unfold sample_now; cbn [last_daily_claim]; lia.
  - exists h, m, sec. cbn [textContent] in Ht. auto.
Defined.

(** C7. For [last_daily_claim = now - 3600000], a claim made exactly one
    hour ago (a claim was made, so the field is not the never-claimed
    sentinel 0), [checkDailyBonus] leaves the button in COOLDOWN showing
    the countdown 23h 0m 0s. *)
Theorem one_hour_ago_shows_23h
        (now : Z) (s : State) (u : UserData) (b : Button) :
  userData s = Some u -> claim_daily_btn s = Some b ->
  last_daily_claim u = now - 3600000 ->
  last_daily_claim u <> 0 ->
  exists b',
    claim_daily_btn (exec (checkDailyBonus now) s) = Some b' /\
    modeOf b' = COOLDOWN /\
    textContent b' = countdownText 23 0 0 /\
    textContent b' = "Next Bonus in 23h 0m 0s".
Proof.
  intros Hu Hb Hlast Hnz. unfold exec.
  destruct (checkDailyBonus_cases now s u b Hu Hb) as [[Hc _] | [_ ->]];
    [lia |]. cbn [snd].
  replace (ONE_DAY - (now - last_daily_claim u)) with 82800000
    by (rewrite ONE_DAY_value; lia).
  exists (cooldownButton b 82800000).
  repeat split.
Qed.

Lemma one_hour_ago_shows_23h_witness :
  exists b',
    claim_daily_btn
      (exec (checkDailyBonus sample_now) (page_claimed_at (sample_now - 3600000)))
    = Some b' /\
    textContent b' = "Next Bonus in 23h 0m 0s".
Proof.
  destruct (one_hour_ago_shows_23h sample_now
              (page_claimed_at (sample_now - 3600000))
              (mkUser 1000 3 (sample_now - 3600000))
              (mkButton true [] EmptyString) eq_refl eq_refl eq_refl)
    as (b' & Hb' & _ & _ & Ht).
  - discriminate.
  - exists b'. split; assumption.
Defined.

(** ** C5, C6: purity of the evaluation and scheduling of the tick *)

(** [checkDailyBonus] never throws, keeps everything outside the button,
    and leaves the pending timers alone or appends one tick. *)
Lemma checkDailyBonus_frame (now : Z) (s : State) :
  result (checkDailyBonus now) s = Normal tt /\
  sameOutsideButton s (exec (checkDailyBonus now) s) /\
  (timers (exec (checkDailyBonus now) s) = timers s \/
   timers (exec (checkDailyBonus now) s) = (timers s ++ [tick])%list).
Proof.
  unfold result, exec.
  destruct (userData s) as [u |] eqn:Hu.
  - destruct (claim_daily_btn s) as [b |] eqn:Hb.
    + destruct (checkDailyBonus_cases now s u b Hu Hb) as [[_ ->] | [_ ->]];
        cbn [fst snd]; repeat split; auto.
    + rewrite checkDailyBonus_no_button by assumption.
      cbn [fst snd]. repeat split; auto.
  - rewrite checkDailyBonus_no_user by assumption.
    cbn [fst snd]. repeat split; auto.
Qed.

(** C5. The mode and label that [checkDailyBonus] produces are a function
    of [now] and the user data alone: two pages with the same user data,
    evaluated at the same [now], show the same mode and label whatever
    their buttons, timers and other elements held before; evaluating again
    at the same [now] shows it again; the call never throws, does not touch
    the user data or any element but the button, and its only other effect
    is scheduling at most one tick. *)
Theorem evaluation_depends_only_on_now_and_user_data
        (now : Z) (s1 s2 : State) (u : UserData) (b1 b2 : Button) :
  userData s1 = Some u -> userData s2 = Some u ->
  claim_daily_btn s1 = Some b1 -> claim_daily_btn s2 = Some b2 ->
  exists out,
    evaluation (exec (checkDailyBonus now) s1) = Some out /\
    evaluation (exec (checkDailyBonus now) s2) = Some out /\
    evaluation (exec (checkDailyBonus now) (exec (checkDailyBonus now) s1)) = Some out /\
    result (checkDailyBonus now) s1 = Normal tt /\
    userData (exec (checkDailyBonus now) s1) = Some u /\
    sameOutsideButton s1 (exec (checkDailyBonus now) s1) /\
    (timers (exec (checkDailyBonus now) s1) = timers s1 \/
     timers (exec (checkDailyBonus now) s1) = (timers s1 ++ [tick])%list).
Proof.
  intros Hu1 Hu2 Hb1 Hb2.
  destruct (checkDailyBonus_frame now s1) as (Hres & Hsame & Htim).
  assert (Hu1' : userData (exec (checkDailyBonus now) s1) = Some u)
    by (destruct Hsame as (-> & _); assumption).
  unfold evaluation, exec in *.
  destruct (checkDailyBonus_cases now s1 u b1 Hu1 Hb1) as [[Hc E1] | [Hc E1]];
    destruct (checkDailyBonus_cases now s2 u b2 Hu2 Hb2) as [[Hc' E2] | [Hc' E2]];
    try lia; rewrite E1 in *; rewrite E2; cbn [snd] in *.
  - destruct (checkDailyBonus_cases now
                (set_claim_daily_btn (claimableButton b1) s1) u
                (claimableButton b1) Hu1' eq_refl) as [[_ E3] | [Hc3 _]];
      [rewrite E3 | lia].
    exists (CLAIMABLE, "Claim Daily Bonus"). repeat split; auto.
  - set (c1 := cooldownButton b1 _) in *.
    destruct (checkDailyBonus_cases now
                (set_timers (timers s1 ++ [tick]) (set_claim_daily_btn c1 s1))
                u c1 Hu1' eq_refl) as [[Hc3 _] | [_ E3]];
      [lia | rewrite E3].
    exists (COOLDOWN, textContent c1). repeat split; auto.
Qed.

Lemma evaluation_depends_only_on_now_and_user_data_witness :
  exists out,
    evaluation (exec (checkDailyBonus sample_now) (page_claimed_at (sample_now - 3600000)))
    = Some out /\
    evaluation (exec (checkDailyBonus sample_now)
                  (set_timers [tick; tick]
                     (set_claim_daily_btn (mkButton false ["ready"] "Claim Daily Bonus")
                        (page_claimed_at (sample_now - 3600000)))))
    = Some out.
Proof.
  destruct (evaluation_depends_only_on_now_and_user_data sample_now
              (page_claimed_at (sample_now - 3600000))
              (set_timers [tick; tick]
                 (set_claim_daily_btn (mkButton false ["ready"] "Claim Daily Bonus")
                    (page_claimed_at (sample_now - 3600000))))
              (mkUser 1000 3 (sample_now - 3600000))
              (mkButton true [] EmptyString)
              (mkButton false ["ready"] "Claim Daily Bonus")
              eq_refl eq_refl eq_refl eq_refl)
    as (out & H1 & H2 & _).
  exists out. split; assumption.
Defined.

(** C6. [checkDailyBonus] registers a tick (one, with a delay of 1000 ms)
    exactly when it ends in COOLDOWN; when it ends in CLAIMABLE the pending
    timers are what they were, and firing a pending tick at such a time
    uses it up without registering another. *)
Theorem tick_scheduled_only_in_cooldown
        (now : Z) (s : State) (u : UserData) (b : Button) :
  userData s = Some u -> claim_daily_btn s = Some b ->
  exists b',
    claim_daily_btn (exec (checkDailyBonus now) s) = Some b' /\
    (modeOf b' = CLAIMABLE -> timers (exec (checkDailyBonus now) s) = timers s) /\
    (modeOf b' = COOLDOWN ->
     timers (exec (checkDailyBonus now) s)
     = (timers s ++ [mkTimer CbCheckDailyBonus 1000])%list) /\
    (modeOf b' = CLAIMABLE ->
     forall i d, nth_error (timers s) i = Some (mkTimer CbCheckDailyBonus d) ->
                 timers (fire i now s) = removeAt i (timers s)).
Proof.
  intros Hu Hb. unfold exec.
  destruct (checkDailyBonus_cases now s u b Hu Hb) as [[Hc E] | [Hc E]];
    rewrite E; cbn [snd].
  - exists (claimableButton b). split; [reflexivity |].
    split; [reflexivity |]. split; [discriminate |].
    intros _ i d Hi. unfold fire, exec. rewrite Hi. cbn [callback runCallback].
    rewrite (checkDailyBonus_claimable now _ u b); try assumption.
    + reflexivity.
    + now apply claimable_test.
  - exists (cooldownButton b (ONE_DAY - (now - last_daily_claim u))).
    split; [reflexivity |].
    split; [discriminate |]. split; [reflexivity | discriminate].
Qed.

Lemma tick_scheduled_only_in_cooldown_witness :
  exists b',
    claim_daily_btn (exec (checkDailyBonus sample_now) page_never_claimed) = Some b' /\
    (modeOf b' = CLAIMABLE ->
     timers (exec (checkDailyBonus sample_now) page_never_claimed)
     = timers page_never_claimed).
Proof.
  destruct (tick_scheduled_only_in_cooldown sample_now page_never_claimed
              (mkUser 1000 3 0) (mkButton true [] EmptyString) eq_refl eq_refl)
    as (b' & Hb' & Hc & _).
  exists b'. split; assumption.
Defined.

(** ** C8: [apiCall] propagates every failure *)

Lemma orElse_nonempty (m dflt : string) :
  m <> EmptyString -> orElse (Some m) dflt = m.
Proof.
  intros Hm. unfold orElse.
  destruct (String.eqb m EmptyString) eqn:E; [| reflexivity].
  apply String.eqb_eq in E. contradiction.
Qed.

(** What [apiCall] does on a failing answer: it logs the error on the
    console and throws it. *)
Lemma apiCall_fails {P} (net : FetchOutcome P) (m : string) (s : State) :
  Fails net m ->
  exists e,
    err_message e = m /\
    apiCall net s = (Thrown e, set_console (console s ++ [e]) s).
Proof.
  intros H. destruct H as [e | ok e | b m Hm Hne | b Hb].
  - exists e. split; reflexivity.
  - exists e. split; reflexivity.
  - exists (mkError "Error" m). split; [reflexivity |].
    cbv [apiCall tryCatch bind throw console_error modify negb].
    rewrite Hm, orElse_nonempty by assumption. reflexivity.
  - exists (mkError "Error" "Request failed"). split; [reflexivity |].
    cbv [apiCall tryCatch bind throw console_error modify negb].
    destruct Hb as [-> | ->]; reflexivity.
Qed.

Lemma apiCall_ok {P} (b : Body P) (s : State) :
  apiCall (FetchResolves true (JsonResolves b)) s = (Normal b, s).
Proof. reflexivity. Qed.

(** Every answer of the network is a failure with its message, or an [ok]
    response with a parsed body. *)
Lemma answer_fails_or_ok {P} (net : FetchOutcome P) :
  (exists m, Fails net m) \/ (exists b, net = FetchResolves true (JsonResolves b)).
Proof.
  destruct net as [e | ok [e | b]].
  - left. exists (err_message e). constructor.
  - left. exists (err_message e). constructor.
  - destruct ok.
    + right. now exists b.
    + left. destruct (message b) as [m |] eqn:Hm.
      * destruct (string_dec m EmptyString) as [-> | Hne].
        -- exists "Request failed". apply fails_status_generic. now right.
        -- exists m. now apply fails_status_message.
      * exists "Request failed". apply fails_status_generic. now left.
Qed.




(** ** C4: a rejected claim *)

Lemma claimDailyBonus_fails (net : FetchOutcome ClaimResult) (m : string)
      (now : Z) (s : State) :
  Fails net m ->
  exists e,
    err_message e = m /\
    claimDailyBonus net now s
    = showToast m "error" (set_console (console s ++ [e]) s).
Proof.
  intros H. destruct (apiCall_fails net m s H) as (e & He & E).
  exists e. split; [assumption |].
  unfold claimDailyBonus, tryCatch. unfold bind at 1.
  rewrite E, He. reflexivity.
Qed.

Lemma showToast_no_container (m type : string) (s : State) :
  toast_container s = None -> showToast m type s = (Normal tt, s).
Proof. intros H. cbv [showToast bind gets]. now rewrite H. Qed.

Lemma showToast_container (m type : string) (s : State) (toasts : list Toast) :
  toast_container s = Some toasts ->
  showToast m type s
  = (Normal tt,
     set_timers (timers s ++ [mkTimer (CbToastFade (next_toast s)) 3000])
       (set_toasts (toasts ++ [mkToast (next_toast s) ("toast " ++ type) m false])
                   (S (next_toast s)) s)).
Proof. intros H. cbv [showToast bind gets]. now rewrite H. Qed.

(** The evaluation reads the user data and the button only. *)
Lemma evaluation_check_congr (now : Z) (s1 s2 : State) :
  userData s1 = userData s2 -> claim_daily_btn s1 = claim_daily_btn s2 ->
  evaluation (exec (checkDailyBonus now) s1)
  = evaluation (exec (checkDailyBonus now) s2).
Proof.
  intros Hu Hb. unfold evaluation, exec.
  destruct (userData s2) as [u |] eqn:Hu2.
  - destruct (claim_daily_btn s2) as [b |] eqn:Hb2.
    + destruct (checkDailyBonus_cases now s1 u b Hu Hb) as [[Hc ->] | [Hc ->]];
        destruct (checkDailyBonus_cases now s2 u b Hu2 Hb2) as [[Hc' ->] | [Hc' ->]];
        try lia; reflexivity.
    + rewrite !checkDailyBonus_no_button by assumption.
      cbn [snd]. now rewrite Hb, Hb2.
  - rewrite !checkDailyBonus_no_user by assumption.
    cbn [snd]. now rewrite Hb.
Qed.

Lemma nth_error_app_left {A} (l extra : list A) (i : nat) (x : A) :
  nth_error l i = Some x -> nth_error (l ++ extra) i = Some x.
Proof.
  intros H. rewrite nth_error_app1; [assumption |].
  apply nth_error_Some. congruence.
Qed.

Lemma ticks_removeAt (i : nat) (d : Z) (l : list Timer) :
  nth_error l i = Some (mkTimer CbCheckDailyBonus d) ->
  S (List.length
       (filter (fun t => match callback t with CbCheckDailyBonus => true | _ => false end)
               (removeAt i l)))
  = List.length
      (filter (fun t => match callback t with CbCheckDailyBonus => true | _ => false end) l).
Proof.
  revert i. induction l as [| t r IH]; intros [| i] H; cbn in H; try discriminate.
  - injection H as ->. reflexivity.
  - cbn [removeAt filter]. destruct (callback t); cbn [List.length];
      rewrite <- (IH i H); reflexivity.
Qed.

Lemma removeAt_app_left {A} (l extra : list A) (i : nat) (x : A) :
  nth_error l i = Some x -> removeAt i (l ++ extra) = (removeAt i l ++ extra)%list.
Proof.
  revert i. induction l as [| y l IH]; intros [| i] H; cbn in H; try discriminate.
  - reflexivity.
  - cbn. now rewrite (IH i H).
Qed.

(** A tick that was pending before a step that kept the user data and the
    button and only added timers that are not ticks: fired afterwards, it
    runs [checkDailyBonus], which decides the mode from the user data and
    the time of firing and, in COOLDOWN, registers the next tick. *)
Lemma pending_tick_still_evaluates
      (i : nat) (d now' : Z) (s s' : State) (u : UserData) (b : Button)
      (extra : list Timer) :
  userData s' = Some u -> claim_daily_btn s' = Some b ->
  timers s' = (timers s ++ extra)%list ->
  filter (fun t => match callback t with CbCheckDailyBonus => true | _ => false end)
         extra = [] ->
  nth_error (timers s) i = Some (mkTimer CbCheckDailyBonus d) ->
  exists b',
    claim_daily_btn (fire i now' s') = Some b' /\
    (modeOf b' = CLAIMABLE <->
     (last_daily_claim u = 0 \/ now' - last_daily_claim u >= 86400000)) /\
    (modeOf b' = COOLDOWN ->
     exists h mi sec, textContent b' = countdownText h mi sec) /\
    (modeOf b' = COOLDOWN ->
     List.length (ticks (fire i now' s')) = List.length (ticks s)) /\
    (modeOf b' = CLAIMABLE ->
     S (List.length (ticks (fire i now' s'))) = List.length (ticks s)).
Proof.
  intros Hu Hb Ht Hextra Hi.
  pose proof (ticks_removeAt i d (timers s) Hi) as Hlen.
  unfold fire, exec. rewrite Ht, (nth_error_app_left _ extra _ _ Hi).
  rewrite (removeAt_app_left _ extra _ _ Hi). cbn [callback runCallback].
  destruct (checkDailyBonus_cases now'
              (set_timers (removeAt i (timers s) ++ extra) s') u b Hu Hb)
    as [[Hc ->] | [Hc ->]]; cbn [snd].
  - exists (claimableButton b). split; [reflexivity |].
    rewrite modeOf_claimableButton.
    split; [tauto |]. split; [discriminate |]. split; [discriminate |].
    intros _. unfold ticks. cbn [timers set_timers set_claim_daily_btn].
    rewrite filter_app, Hextra, app_nil_r. exact Hlen.
  - eexists. split; [reflexivity |].
    rewrite modeOf_cooldownButton.
    split; [split; [discriminate | lia] |].
    split; [intros _; unfold cooldownButton; cbn [textContent]; eauto |].
    split; [| discriminate].
    intros _. unfold ticks. cbn [timers set_timers set_claim_daily_btn].
    rewrite !filter_app, Hextra, app_nil_r, length_app.
    cbn [filter tick callback List.length].
    unfold ticks in Hlen. lia.
Qed.

(** C4 as stated fails where the claim button can be clicked: on a page
    that [checkDailyBonus] left CLAIMABLE no tick is pending, and a rejected
    claim neither re-evaluates the button nor registers a tick; once the two
    timers of the error toast have fired no timer is left at all, so no
    re-evaluation will run. *)
Lemma rejected_claim_leaves_nothing_ticking_counterexample :
  evaluation (exec (checkDailyBonus sample_now) page_never_claimed)
  = Some (CLAIMABLE, "Claim Daily Bonus") /\
  ticks (exec (checkDailyBonus sample_now) page_never_claimed) = [] /\
  toast_container
    (exec (claimDailyBonus claim_rejected sample_now)
          (exec (checkDailyBonus sample_now) page_never_claimed))
  = Some [mkToast 0 "toast error" "Already claimed today" false] /\
  evaluation
    (exec (claimDailyBonus claim_rejected sample_now)
          (exec (checkDailyBonus sample_now) page_never_claimed))
  = Some (CLAIMABLE, "Claim Daily Bonus") /\
  timers
    (exec (claimDailyBonus claim_rejected sample_now)
          (exec (checkDailyBonus sample_now) page_never_claimed))
  = [mkTimer (CbToastFade 0) 3000] /\
  timers
    (fire 0 (sample_now + 3300)
       (fire 0 (sample_now + 3000)
          (exec (claimDailyBonus claim_rejected sample_now)
                (exec (checkDailyBonus sample_now) page_never_claimed))))
  = [] /\
  evaluation
    (fire 0 (sample_now + 3300)
       (fire 0 (sample_now + 3000)
          (exec (claimDailyBonus claim_rejected sample_now)
                (exec (checkDailyBonus sample_now) page_never_claimed))))
  = Some (CLAIMABLE, "Claim Daily Bonus").
Proof. repeat split. Qed.

(** C4 (amended). When the claim request fails with message [m] (for a
    rejection by the server, the server's own message when it is not
    empty), [claimDailyBonus] returns normally, the error is on the console
    and, on a page that has the toast container, exactly [m] is shown in an
    error toast; the user data, the balance and streak displays and the
    claim button are what they were.  The failure path does not re-evaluate
    the button and registers no tick: the only timer it can add is the
    toast's.  It removes none either, so a tick that was pending is still
    pending and, when it fires, [checkDailyBonus] decides the mode from the
    user data at the time of firing and in COOLDOWN registers the next
    tick. *)
Theorem failed_claim_shows_message_and_keeps_state
        (net : FetchOutcome ClaimResult) (m : string) (now : Z) (s : State) :
  Fails net m ->
  result (claimDailyBonus net now) s = Normal tt /\
  userData (exec (claimDailyBonus net now) s) = userData s /\
  nav_balance (exec (claimDailyBonus net now) s) = nav_balance s /\
  user_balance (exec (claimDailyBonus net now) s) = user_balance s /\
  daily_streak_el (exec (claimDailyBonus net now) s) = daily_streak_el s /\
  claim_daily_btn (exec (claimDailyBonus net now) s) = claim_daily_btn s /\
  (forall toasts,
      toast_container s = Some toasts ->
      toast_container (exec (claimDailyBonus net now) s)
      = Some (toasts ++ [mkToast (next_toast s) "toast error" m false])%list) /\
  (exists e,
      err_message e = m /\
      console (exec (claimDailyBonus net now) s) = (console s ++ [e])%list) /\
  (timers (exec (claimDailyBonus net now) s) = timers s \/
   timers (exec (claimDailyBonus net now) s)
   = (timers s ++ [mkTimer (CbToastFade (next_toast s)) 3000])%list) /\
  ticks (exec (claimDailyBonus net now) s) = ticks s /\
  (forall i d now' u b,
      nth_error (timers s) i = Some (mkTimer CbCheckDailyBonus d) ->
      userData s = Some u -> claim_daily_btn s = Some b ->
      nth_error (timers (exec (claimDailyBonus net now) s)) i
      = Some (mkTimer CbCheckDailyBonus d) /\
      exists b',
        claim_daily_btn (fire i now' (exec (claimDailyBonus net now) s)) = Some b' /\
        (modeOf b' = CLAIMABLE <->
         (last_daily_claim u = 0 \/ now' - last_daily_claim u >= 86400000)) /\
        (modeOf b' = COOLDOWN ->
         exists h mi sec, textContent b' = countdownText h mi sec) /\
        (modeOf b' = COOLDOWN ->
         List.length (ticks (fire i now' (exec (claimDailyBonus net now) s)))
         = List.length (ticks s)) /\
        (modeOf b' = CLAIMABLE ->
         S (List.length (ticks (fire i now' (exec (claimDailyBonus net now) s))))
         = List.length (ticks s))).
Proof.
  intros H. destruct (claimDailyBonus_fails net m now s H) as (e & He & E).
  unfold result, exec. rewrite E. clear E.
  set (s1 := set_console (console s ++ [e]) s).
  destruct (toast_container s) as [toasts |] eqn:Ht.
  - rewrite (showToast_container m "error" s1 toasts) by exact Ht.
    cbn [fst snd]. repeat (split; [reflexivity |]).
    split; [intros ? [= <-]; reflexivity |].
    split; [exists e; split; [assumption | reflexivity] |].
    split; [right; reflexivity |].
    split.
    + unfold ticks. cbn [timers set_timers s1 set_console].
      rewrite filter_app. cbn [filter callback]. apply app_nil_r.
    + intros i d now' u b Hi Hu Hb.
      split.
      * cbn [timers set_timers s1 set_console].
        exact (nth_error_app_left _ _ _ _ Hi).
      * apply (pending_tick_still_evaluates i d now' s _ u b
                 [mkTimer (CbToastFade (next_toast s)) 3000]);
          try assumption; reflexivity.
  - rewrite showToast_no_container by exact Ht.
    cbn [fst snd]. repeat (split; [reflexivity |]).
    split; [intros ? [=] |].
    split; [exists e; split; [assumption | reflexivity] |].
    split; [left; reflexivity |].
    split; [reflexivity |].
    intros i d now' u b Hi Hu Hb. split; [exact Hi |].
    apply (pending_tick_still_evaluates i d now' s s1 u b []);
      try assumption; try reflexivity.
    cbn [timers s1 set_console]. now rewrite app_nil_r.
Qed.

Lemma failed_claim_shows_message_and_keeps_state_witness :
  toast_container
    (exec (claimDailyBonus claim_rejected (sample_now + 500))
          (exec (checkDailyBonus sample_now) (page_claimed_at (sample_now - 3600000))))
  = Some [mkToast 0 "toast error" "Already claimed today" false] /\
  exists b',
    claim_daily_btn
      (fire 0 (sample_now + 1000)
         (exec (claimDailyBonus claim_rejected (sample_now + 500))
               (exec (checkDailyBonus sample_now)
                     (page_claimed_at (sample_now - 3600000)))))
    = Some b' /\
    (modeOf b' = COOLDOWN ->
     List.length
       (ticks
          (fire 0 (sample_now + 1000)
             (exec (claimDailyBonus claim_rejected (sample_now + 500))
                   (exec (checkDailyBonus sample_now)
                         (page_claimed_at (sample_now - 3600000))))))
     = 1%nat).
Proof.
  destruct (failed_claim_shows_message_and_keeps_state claim_rejected
              "Already claimed today" (sample_now + 500)
              (exec (checkDailyBonus sample_now) (page_claimed_at (sample_now - 3600000))))
    as (_ & _ & _ & _ & _ & _ & Ht & _ & _ & _ & Htick).
  - apply fails_status_message; [reflexivity | discriminate].
  - split; [exact (Ht [] eq_refl) |].
    destruct (Htick 0%nat 1000 (sample_now + 1000)
                (mkUser 1000 3 (sample_now - 3600000))
                (mkButton true [] "Next Bonus in 23h 0m 0s")
                eq_refl eq_refl eq_refl)
      as (_ & b' & Hb' & _ & _ & Hcool & _).
    exists b'. split; [exact Hb' |].
    intros Hm. rewrite (Hcool Hm). reflexivity.
Defined.

(** ** C3: a successful claim *)

Lemma showToast_runs (m type : string) (s : State) :
  exists s',
    showToast m type s = (Normal tt, s') /\
    userData s' = userData s /\
    claim_daily_btn s' = claim_daily_btn s /\
    daily_streak_el s' = daily_streak_el s.
Proof.
  destruct (toast_container s) as [toasts |] eqn:Ht.
  - rewrite (showToast_container m type s toasts Ht).
    eexists. split; [reflexivity |]. repeat split.
  - rewrite (showToast_no_container m type s Ht).
    exists s. repeat split.
Qed.

Lemma updateBalance_runs (v : Z) (s : State) :
  exists s',
    updateBalance v s = (Normal tt, s') /\
    userData s' = userData s /\
    claim_daily_btn s' = claim_daily_btn s /\
    daily_streak_el s' = daily_streak_el s.
Proof.
  cbv [updateBalance bind gets modify ret].
  destruct (nav_balance s); cbn [user_balance set_nav_balance];
    destruct (user_balance s); eexists; (split; [reflexivity |]);
    repeat split.
Qed.

Lemma set_streak_text_runs (v : Z) (s : State) (old : string) :
  daily_streak_el s = Some old ->
  set_streak_text v s = (Normal tt, set_daily_streak_el (numToString v) s).
Proof. intros H. cbv [set_streak_text bind gets modify]. now rewrite H. Qed.

(** C3 (what the code does). After a successful claim the user data is the
    one loaded with the page ([last_daily_claim] is not set to [now]), so
    the evaluation that follows is the one the page had without the claim:
    a page whose button was CLAIMABLE is still CLAIMABLE, not in COOLDOWN. *)
Theorem successful_claim_keeps_stale_evaluation
        (b : Body ClaimResult) (now : Z) (s : State)
        (u : UserData) (old : string) :
  userData s = Some u -> daily_streak_el s = Some old ->
  result (claimDailyBonus (FetchResolves true (JsonResolves b)) now) s = Normal tt /\
  userData (exec (claimDailyBonus (FetchResolves true (JsonResolves b)) now) s)
  = Some u /\
  evaluation (exec (claimDailyBonus (FetchResolves true (JsonResolves b)) now) s)
  = evaluation (exec (checkDailyBonus now) s).
Proof.
  intros Hu Hel.
  destruct (showToast_runs (interpolate (message b)) "success" s)
    as (s2 & E2 & Hu2 & Hb2 & Hel2).
  destruct (updateBalance_runs (new_balance (payload b)) s2)
    as (s3 & E3 & Hu3 & Hb3 & Hel3).
  assert (E4 := set_streak_text_runs (streak (payload b)) s3 old
                  (eq_trans Hel3 (eq_trans Hel2 Hel))).
  set (s4 := set_daily_streak_el (numToString (streak (payload b))) s3) in *.
  assert (Hu4 : userData s4 = userData s) by (cbn; congruence).
  assert (Hb4 : claim_daily_btn s4 = claim_daily_btn s) by (cbn; congruence).
  assert (E : claimDailyBonus (FetchResolves true (JsonResolves b)) now s
              = checkDailyBonus now s4).
  { unfold claimDailyBonus, tryCatch, bind. rewrite apiCall_ok, E2, E3, E4.
    destruct (checkDailyBonus_frame now s4) as (Hres & _).
    unfold result in Hres.
    destruct (checkDailyBonus now s4) as [o s5]. cbn [fst] in Hres.
    now subst o. }
  unfold result, exec. rewrite E.
  destruct (checkDailyBonus_frame now s4) as (Hres & (Hsame & _) & _).
  split; [exact Hres |]. split.
  - unfold exec in Hsame. congruence.
  - now apply evaluation_check_congr.
Qed.

Lemma successful_claim_keeps_stale_evaluation_witness :
  evaluation (exec (claimDailyBonus claim_accepted sample_now) page_never_claimed)
  = Some (CLAIMABLE, "Claim Daily Bonus") /\
  userData (exec (claimDailyBonus claim_accepted sample_now) page_never_claimed)
  = Some (mkUser 1000 3 0) /\
  nav_balance (exec (claimDailyBonus claim_accepted sample_now) page_never_claimed)
  = Some "1,500" /\
  daily_streak_el (exec (claimDailyBonus claim_accepted sample_now) page_never_claimed)
  = Some "4" /\
  ticks (exec (claimDailyBonus claim_accepted sample_now) page_never_claimed) = [].
Proof.
  destruct (successful_claim_keeps_stale_evaluation
              (mkBody (Some "Daily bonus claimed!") (mkClaim 1500 4))
              sample_now page_never_claimed (mkUser 1000 3 0) "3"
              eq_refl eq_refl)
    as (_ & Hu & Hev).
  split; [exact (eq_trans Hev eq_refl) |].
  split; [exact Hu |].
  repeat split.
Defined.

(** ** C10: the transaction list *)

Lemma slice_0_5 {A} (l : list A) : slice 0 5 l = firstn 5 l.
Proof.
  unfold slice, clampIndex. cbn [Z.ltb Z.compare].
  rewrite (Z.min_l 0) by lia. cbn [Z.to_nat skipn].
  rewrite Z.sub_0_r.
  destruct (Nat.le_gt_cases (List.length l) 5) as [Hle | Hgt].
  - rewrite Z.min_r by lia. rewrite Nat2Z.id.
    rewrite firstn_all. symmetry. now apply firstn_all2.
  - rewrite (Z.min_l 5) by lia. reflexivity.
Qed.

Lemma append_empty_r (x : string) : (x ++ EmptyString)%string = x.
Proof. induction x as [| c x IH]; cbn; [reflexivity | now rewrite IH]. Qed.

(** Joining on the empty separator is plain concatenation, in order. *)
Lemma join_empty (l : list string) :
  join EmptyString l = fold_right String.append EmptyString l.
Proof.
  induction l as [| x r IH]; [reflexivity |].
  destruct r as [| y r'].
  - cbn. symmetry. apply append_empty_r.
  - change (join EmptyString (x :: y :: r'))
      with (x ++ (EmptyString ++ join EmptyString (y :: r')))%string.
    rewrite IH. reflexivity.
Qed.

(** C10. [displayTransactions] writes into the transactions container, for
    an empty list, exactly the paragraph that reads No transactions yet,
    and otherwise one item for each of the first five transactions at
    most, in the order of the list and nothing else; the item of a
    transaction is the markup spelled out below, with its type lowered in
    the class, the arrow and sign of its type, its description, its
    timestamp and its amount with commas.  The transactions written are
    taken in the domain on which the embedding prints as the code does
    (ASCII type tag, amount an integer held exactly); those after the
    fifth may be anything. *)
Theorem displayTransactions_first_five
        (transactions : list Transaction) (s : State) (old : string) :
  recent_transactions s = Some old ->
  Forall plainTransaction (firstn 5 transactions) ->
  let q := String (ascii_of_nat 34) EmptyString in
  let br := String (ascii_of_nat 10) EmptyString in
  let up := String (ascii_of_nat 226)
              (String (ascii_of_nat 134) (String (ascii_of_nat 145) EmptyString)) in
  let down := String (ascii_of_nat 226)
                (String (ascii_of_nat 134) (String (ascii_of_nat 147) EmptyString)) in
  let item := fun tx : Transaction =>
    br ++ "            <div class=" ++ q ++ "transaction-item" ++ q ++ ">" ++
    br ++ "                <div class=" ++ q ++ "transaction-info" ++ q ++ ">" ++
    br ++ "                    <div class=" ++ q ++ "transaction-icon "
       ++ toLowerCase (tx_type tx) ++ q ++ ">" ++
    br ++ "                        "
       ++ (if String.eqb (tx_type tx) "EARN" then up else down) ++
    br ++ "                    </div>" ++
    br ++ "                    <div>" ++
    br ++ "                        <div class=" ++ q ++ "transaction-desc" ++ q ++ ">"
       ++ description tx ++ "</div>" ++
    br ++ "                        <div class=" ++ q ++ "transaction-date" ++ q ++ ">"
       ++ timestamp tx ++ "</div>" ++
    br ++ "                    </div>" ++
    br ++ "                </div>" ++
    br ++ "                <div class=" ++ q ++ "transaction-amount "
       ++ toLowerCase (tx_type tx) ++ q ++ ">" ++
    br ++ "                    "
       ++ (if String.eqb (tx_type tx) "EARN" then "+" else "-")
       ++ formatNumber (amount tx) ++
    br ++ "                </div>" ++
    br ++ "            </div>" ++
    br ++ "        " in
  displayTransactions transactions s
  = (Normal tt,
     set_recent_transactions
       (match transactions with
        | [] => "<p class=" ++ q ++ "text-center text-muted" ++ q
                ++ ">No transactions yet</p>"
        | _ :: _ =>
            fold_right String.append EmptyString
                       (map item (firstn 5 transactions))
        end) s) /\
  (forall tx, item tx <> EmptyString) /\
  (List.length (firstn 5 transactions) <= 5)%nat /\
  List.length (firstn 5 transactions) = Nat.min 5 (List.length transactions) /\
  (forall i, (i < 5)%nat ->
             nth_error (firstn 5 transactions) i = nth_error transactions i).
Proof.
  intros Hc _ q br up down item.
  assert (Hitem : forall tx, item tx = renderTransaction tx).
  { intros tx. unfold item, renderTransaction, nl, dq, upArrow, downArrow, q, br, up, down.
    cbn [spaces append]. reflexivity. }
  split; [| split; [| split; [| split]]].
  - cbv [displayTransactions bind gets]. rewrite Hc.
    destruct transactions as [| tx r]; [reflexivity |].
    replace (Z.of_nat (List.length (tx :: r)) =? 0) with false
      by (symmetry; apply Z.eqb_neq; cbn [List.length]; lia).
    rewrite slice_0_5, join_empty.
    apply (f_equal (fun h => (Normal tt,
                              set_recent_transactions
                                (fold_right String.append EmptyString h) s))).
    symmetry. apply map_ext. exact Hitem.
  - intros tx. unfold item, br. cbn [append]. discriminate.
  - apply firstn_le_length.
  - apply length_firstn.
  - intros i Hi. rewrite nth_error_firstn.
    apply Nat.ltb_lt in Hi. now rewrite Hi.
Qed.

Lemma displayTransactions_first_five_witness :
  recent_transactions
    (exec (displayTransactions
             (map (fun n => mkTx "EARN" "Task" "2024-01-01" n) [1; 2; 3; 4; 5; 6; 7]))
          page_never_claimed)
  = Some (fold_right String.append EmptyString
            (map renderTransaction
               (map (fun n => mkTx "EARN" "Task" "2024-01-01" n) [1; 2; 3; 4; 5]))).
Proof.
  destruct (displayTransactions_first_five
              (map (fun n => mkTx "EARN" "Task" "2024-01-01" n) [1; 2; 3; 4; 5; 6; 7])
              page_never_claimed EmptyString eq_refl)
    as (E & _).
  - cbn [map firstn].
    repeat (constructor; [split; [reflexivity | unfold safeInteger; cbn [amount]; lia] |]).
    constructor.
  - unfold exec. rewrite E. reflexivity.
Defined.

(** ** Concrete runs *)

Example formatNumber_1500 : formatNumber 1500 = "1,500".
Proof. reflexivity. Qed.

Example formatNumber_millions : formatNumber 1234567 = "1,234,567".
Proof. reflexivity. Qed.

Example formatNumber_negative : formatNumber (-123456) = "-123,456".
Proof. reflexivity. Qed.

Example formatNumber_short :
  formatNumber 0 = "0" /\ formatNumber (-123) = "-123" /\ formatNumber 999 = "999".
Proof. repeat split; reflexivity. Qed.

Example just_over_a_day_is_claimable :
  evaluation (exec (checkDailyBonus sample_now)
                   (page_claimed_at (sample_now - 86400001)))
  = Some (CLAIMABLE, "Claim Daily Bonus").
Proof. reflexivity. Qed.

Example one_millisecond_short_is_cooldown :
  evaluation (exec (checkDailyBonus sample_now)
                   (page_claimed_at (sample_now - 86399999)))
  = Some (COOLDOWN, "Next Bonus in 0h 0m 0s").
Proof. reflexivity. Qed.

Example claimed_this_instant_shows_24h :
  evaluation (exec (checkDailyBonus sample_now) (page_claimed_at sample_now))
  = Some (COOLDOWN, "Next Bonus in 24h 0m 0s").
Proof. reflexivity. Qed.

Example tick_chain_ends_when_claimable :
  ticks (fire 0 (sample_now + 3600000)
              (exec (checkDailyBonus sample_now)
                    (page_claimed_at (sample_now - 82800000)))) = [].
Proof. reflexivity. Qed.

Example loadDashboard_hydrates :
  evaluation
    (exec (loadDashboard
             (FetchResolves true
                (JsonResolves (mkBody None (mkUser 2500 7 (sample_now - 3600000)))))
             (FetchResolves true (JsonResolves (mkBody None [])))
             sample_now)
          (set_userData None page_never_claimed))
  = Some (COOLDOWN, "Next Bonus in 23h 0m 0s").
Proof. reflexivity. Qed.

(** * Further properties of the code *)

(** ** [formatNumber] *)

Lemma isDigit_isWordChar (c : ascii) : isDigit c = true -> isWordChar c = true.
Proof. intros H. unfold isWordChar. now rewrite H. Qed.

Lemma digitRun_allDigits (s : string) :
  allDigits s = true -> digitRun s = String.length s.
Proof.
  induction s as [| c r IH]; [reflexivity |].
  cbn [allDigits digitRun String.length]. intros H.
  apply andb_true_iff in H as [Hc Hr]. rewrite Hc. f_equal. now apply IH.
Qed.

Lemma insertCommas_digit (p c : ascii) (r : string) :
  isWordChar p = true -> isDigit c = true -> allDigits r = true ->
  insertCommas (Some p) (String c r)
  = if ((3 <=? S (String.length r)) && (Nat.modulo (S (String.length r)) 3 =? 0))%nat
    then String "," (String c (insertCommas (Some c) r))
    else String c (insertCommas (Some c) r).
Proof.
  intros Hp Hc Hr. cbn [insertCommas].
  unfold notWordBoundary, groupsOfThreeAhead. cbn [isWordOpt].
  rewrite Hp, (isDigit_isWordChar c Hc). cbn [Bool.eqb andb].
  rewrite digitRun_allDigits by (cbn [allDigits]; now rewrite Hc, Hr).
  reflexivity.
Qed.

Lemma insertCommas_groups (k : nat) :
  forall (s : string) (p : ascii),
    allDigits s = true -> String.length s = (3 * k)%nat -> isWordChar p = true ->
    exists groups,
      insertCommas (Some p) s = flatten (map (String ",") groups) /\
      Forall (fun g => String.length g = 3%nat) groups /\
      List.length groups = k /\
      flatten groups = s.
Proof.
  induction k as [| k IH]; intros s p Hd Hl Hp.
  - destruct s; [| discriminate]. exists []. repeat split. constructor.
  - destruct s as [| c1 [| c2 [| c3 r]]]; cbn [String.length] in Hl; try lia.
    cbn [allDigits] in Hd.
    apply andb_true_iff in Hd as [H1 Hd].
    apply andb_true_iff in Hd as [H2 Hd].
    apply andb_true_iff in Hd as [H3 Hd].
    assert (Hr : String.length r = (3 * k)%nat) by lia.
    destruct (IH r c3 Hd Hr (isDigit_isWordChar _ H3)) as (groups & E & Hg & Hn & Hf).
    exists (String c1 (String c2 (String c3 EmptyString)) :: groups).
    split; [| split; [| split]].
    + rewrite insertCommas_digit; try assumption;
        [| cbn [allDigits]; now rewrite H2, H3, Hd].
      cbn [String.length]. rewrite Hr.
      replace (S (S (S (3 * k))))%nat with (0 + (S k) * 3)%nat by lia.
      rewrite Nat.Div0.mod_add.
      replace (3 <=? 0 + S k * 3)%nat with true by (symmetry; apply Nat.leb_le; lia).
      cbn [Nat.modulo Nat.eqb andb].
      rewrite (insertCommas_digit c1 c2 (String c3 r) (isDigit_isWordChar _ H1) H2)
        by (cbn [allDigits]; now rewrite H3, Hd).
      cbn [String.length]. rewrite Hr.
      replace (S (S (3 * k)))%nat with (2 + k * 3)%nat by lia.
      rewrite Nat.Div0.mod_add.
      replace ((2 mod 3 =? 0)%nat) with false by reflexivity.
      rewrite andb_false_r.
      rewrite (insertCommas_digit c2 c3 r (isDigit_isWordChar _ H2) H3 Hd).
      rewrite Hr.
      replace (S (3 * k))%nat with (1 + k * 3)%nat by lia.
      rewrite Nat.Div0.mod_add.
      replace ((1 mod 3 =? 0)%nat) with false by reflexivity.
      rewrite andb_false_r.
      rewrite E. reflexivity.
    + constructor; [reflexivity | assumption].
    + cbn [List.length]. now rewrite Hn.
    + unfold flatten in *. cbn [fold_right]. rewrite Hf. reflexivity.
Qed.

Lemma insertCommas_first (prev : option ascii) (c : ascii) (r : string) :
  isWordOpt prev = false -> isDigit c = true ->
  insertCommas prev (String c r) = String c (insertCommas (Some c) r).
Proof.
  intros Hp Hc. cbn [insertCommas]. unfold notWordBoundary. cbn [isWordOpt].
  rewrite Hp, (isDigit_isWordChar c Hc). reflexivity.
Qed.

Lemma insertCommas_no_group (p c : ascii) (r : string) (k a : nat) :
  isWordChar p = true -> isDigit c = true -> allDigits r = true ->
  S (String.length r) = (a + k * 3)%nat -> (a = 1 \/ a = 2)%nat ->
  insertCommas (Some p) (String c r) = String c (insertCommas (Some c) r).
Proof.
  intros Hp Hc Hr Hl Ha. rewrite insertCommas_digit by assumption.
  rewrite Hl, Nat.Div0.mod_add.
  destruct Ha as [-> | ->]; cbn [Nat.modulo Nat.eqb]; now rewrite andb_false_r.
Qed.

Lemma insertCommas_digits (prev : option ascii) (s : string) :
  isWordOpt prev = false -> allDigits s = true -> s <> EmptyString ->
  exists head groups,
    insertCommas prev s = head ++ flatten (map (String ",") groups) /\
    (1 <= String.length head <= 3)%nat /\
    Forall (fun g => String.length g = 3%nat) groups /\
    List.length groups = ((String.length s - 1) / 3)%nat /\
    head ++ flatten groups = s.
Proof.
  intros Hp Hd Hne.
  destruct s as [| c1 r1]; [contradiction |]. clear Hne.
  cbn [allDigits] in Hd. apply andb_true_iff in Hd as [H1 Hd1].
  rewrite insertCommas_first by assumption.
  cbn [String.length]. rewrite Nat.sub_succ, Nat.sub_0_r.
  pose proof (Nat.div_mod_eq (String.length r1) 3) as Hdm.
  pose proof (Nat.mod_upper_bound (String.length r1) 3 ltac:(lia)) as Hub.
  remember (String.length r1 / 3)%nat as k eqn:Ek.
  remember (String.length r1 mod 3)%nat as a eqn:Ea.
  clear Ek Ea.
  assert (W1 := isDigit_isWordChar _ H1).
  destruct a as [| [| [| a]]]; [| | | lia].
  - (* the head is one digit *)
    destruct (insertCommas_groups k r1 c1 Hd1 ltac:(lia) W1) as (groups & E & Hg & Hn & Hf).
    exists (String c1 EmptyString), groups. rewrite E, Hf. repeat split; auto; cbn [String.length]; lia.
  - (* two digits *)
    destruct r1 as [| c2 r2]; cbn [String.length] in Hdm; [lia |].
    cbn [allDigits] in Hd1. apply andb_true_iff in Hd1 as [H2 Hd2].
    rewrite (insertCommas_no_group c1 c2 r2 k 1);
      [| assumption | assumption | assumption | lia | lia].
    destruct (insertCommas_groups k r2 c2 Hd2 ltac:(lia) (isDigit_isWordChar _ H2))
      as (groups & E & Hg & Hn & Hf).
    exists (String c1 (String c2 EmptyString)), groups.
    rewrite E, Hf. repeat split; auto; cbn [String.length]; lia.
  - (* three digits *)
    destruct r1 as [| c2 [| c3 r3]]; cbn [String.length] in Hdm; try lia.
    cbn [allDigits] in Hd1. apply andb_true_iff in Hd1 as [H2 Hd2].
    apply andb_true_iff in Hd2 as [H3 Hd3].
    rewrite (insertCommas_no_group c1 c2 (String c3 r3) k 2);
      [| assumption | assumption | cbn [allDigits]; now rewrite H3, Hd3
       | cbn [String.length]; lia | lia].
    rewrite (insertCommas_no_group c2 c3 r3 k 1);
      [| now apply isDigit_isWordChar | assumption | assumption | lia | lia].
    destruct (insertCommas_groups k r3 c3 Hd3 ltac:(lia) (isDigit_isWordChar _ H3))
      as (groups & E & Hg & Hn & Hf).
    exists (String c1 (String c2 (String c3 EmptyString))), groups.
    rewrite E, Hf. repeat split; auto; cbn [String.length]; lia.
Qed.

Lemma string_of_uint_digits (d : uint) :
  allDigits (NilEmpty.string_of_uint d) = true.
Proof. induction d; cbn; auto. Qed.

Lemma NilZero_string_of_uint_digits (d : uint) :
  allDigits (NilZero.string_of_uint d) = true /\
  NilZero.string_of_uint d <> EmptyString.
Proof.
  split.
  - destruct d; try apply string_of_uint_digits. reflexivity.
  - destruct d; discriminate.
Qed.

Lemma numToString_digits (n : Z) :
  0 <= n -> allDigits (numToString n) = true /\ numToString n <> EmptyString.
Proof.
  intros Hn. unfold numToString.
  destruct n as [| p | p]; [| | lia]; apply NilZero_string_of_uint_digits.
Qed.

Lemma numToString_opp (n : Z) :
  0 < n -> numToString (- n) = String "-" (numToString n).
Proof. intros Hn. destruct n as [| p | p]; try lia. reflexivity. Qed.

(** X2. For a balance that is not negative and that a JavaScript number
    holds exactly, [formatNumber] writes the decimal digits as a head of
    one to three digits followed by groups of a comma and exactly three
    digits; there are as many groups as the digits beyond the first allow,
    and the digits read in order are those of the number. *)
Theorem formatNumber_groups_of_three (n : Z) :
  0 <= n -> safeInteger n ->
  exists head groups,
    formatNumber n = head ++ flatten (map (String ",") groups) /\
    (1 <= String.length head <= 3)%nat /\
    Forall (fun g => String.length g = 3%nat) groups /\
    List.length groups = ((String.length (numToString n) - 1) / 3)%nat /\
    head ++ flatten groups = numToString n.
Proof.
  intros Hn _. destruct (numToString_digits n Hn) as [Hd Hne].
  now apply insertCommas_digits.
Qed.

Lemma formatNumber_groups_of_three_witness :
  exists head groups,
    formatNumber 1234567 = head ++ flatten (map (String ",") groups) /\
    List.length groups = 2%nat.
Proof.
  destruct (formatNumber_groups_of_three 1234567 ltac:(lia)
              ltac:(unfold safeInteger; lia))
    as (head & groups & E & _ & _ & Hn & _).
  exists head, groups. split; [exact E | exact Hn].
Defined.

(** X3. The sign does not take part in the grouping: a negative number is
    formatted as a minus sign followed by the formatting of its absolute
    value, so no comma ever follows the sign. *)
Theorem formatNumber_negative_sign (n : Z) :
  0 < n -> formatNumber (- n) = String "-" (formatNumber n).
Proof.
  intros Hn. unfold formatNumber. rewrite numToString_opp by assumption.
  destruct (numToString_digits n ltac:(lia)) as [Hd Hne].
  destruct (numToString n) as [| c r]; [contradiction |].
  cbn [allDigits] in Hd. apply andb_true_iff in Hd as [Hc Hr].
  cbn [insertCommas].
  replace (groupsOfThreeAhead (String "-" (String c r))) with false
    by reflexivity.
  rewrite andb_false_r. reflexivity.
Qed.

Lemma formatNumber_negative_sign_witness :
  formatNumber (- 123456) = String "-" (formatNumber 123456).
Proof. apply (formatNumber_negative_sign 123456). lia. Defined.

Lemma removeCommas_insertCommas (s : string) :
  forall prev, removeCommas (insertCommas prev s) = removeCommas s.
Proof.
  induction s as [| c r IH]; intros prev; [reflexivity |].
  cbn [insertCommas].
  destruct (notWordBoundary prev (Some c) && groupsOfThreeAhead (String c r));
    cbn [removeCommas]; 
    replace (Ascii.eqb "," ",") with true by reflexivity;
    rewrite ?IH; reflexivity.
Qed.

Lemma removeCommas_digits (s : string) :
  allDigits s = true -> removeCommas s = s.
Proof.
  induction s as [| c r IH]; [reflexivity |].
  cbn [allDigits removeCommas]. intros H.
  apply andb_true_iff in H as [Hc Hr].
  destruct (Ascii.eqb c ",") eqn:E.
  - apply Ascii.eqb_eq in E. subst c. discriminate Hc.
  - now rewrite IH.
Qed.

(** X1. [formatNumber] only inserts commas: for every integer that a
    JavaScript number holds exactly, taking the commas out of its result
    gives back the decimal text of the number. *)
Theorem formatNumber_only_inserts_commas (n : Z) :
  safeInteger n ->
  removeCommas (formatNumber n) = numToString n.
Proof.
  intros _. unfold formatNumber. rewrite removeCommas_insertCommas.
  destruct (Z.lt_trichotomy n 0) as [Hneg | [-> | Hpos]].
  - replace n with (- (- n)) by lia.
    rewrite numToString_opp by lia. cbn [removeCommas].
    replace (Ascii.eqb "-" ",") with false by reflexivity. f_equal.
    apply removeCommas_digits. apply numToString_digits. lia.
  - reflexivity.
  - apply removeCommas_digits. apply numToString_digits. lia.
Qed.

Lemma formatNumber_only_inserts_commas_witness :
  removeCommas (formatNumber (- 9007199254740991)) = "-9007199254740991".
Proof.
  exact (formatNumber_only_inserts_commas (- 9007199254740991)
           ltac:(unfold safeInteger; lia)).
Defined.

Lemma below_thousand_checked :
  forallb (fun k =>
             String.eqb (formatNumber (Z.of_nat k)) (numToString (Z.of_nat k))
             && String.eqb (formatNumber (- Z.of_nat k)) (numToString (- Z.of_nat k)))
          (seq 0 1000) = true.
Proof. vm_compute. reflexivity. Qed.

(** X4. A number of at most three digits is shown without any comma:
    between -1000 and 1000, [formatNumber] is the decimal text itself. *)
Theorem formatNumber_below_thousand (n : Z) :
  -1000 < n < 1000 -> formatNumber n = numToString n.
Proof.
  intros Hn. pose proof below_thousand_checked as H.
  rewrite forallb_forall in H.
  specialize (H (Z.to_nat (Z.abs n))).
  rewrite Z2Nat.id in H by lia.
  assert (Hin : In (Z.to_nat (Z.abs n)) (seq 0 1000)) by (apply in_seq; lia).
  apply H, andb_true_iff in Hin. destruct Hin as [Hpos Hneg].
  apply String.eqb_eq in Hpos. apply String.eqb_eq in Hneg.
  destruct (Z_lt_le_dec n 0) as [Hlt | Hge].
  - replace n with (- Z.abs n) by lia. exact Hneg.
  - replace n with (Z.abs n) by lia. exact Hpos.
Qed.

Lemma formatNumber_below_thousand_witness : formatNumber (- 999) = numToString (- 999).
Proof. apply (formatNumber_below_thousand (- 999)). lia. Defined.

(** ** The toast life cycle *)

Lemma nth_error_last {A} (l : list A) (x : A) :
  nth_error (l ++ [x]) (List.length l) = Some x.
Proof. rewrite nth_error_app2, Nat.sub_diag by lia. reflexivity. Qed.

Lemma removeAt_last {A} (l : list A) (x : A) :
  removeAt (List.length l) (l ++ [x]) = l.
Proof. induction l as [| y l IH]; cbn; [reflexivity | now rewrite IH]. Qed.

Lemma fadeToast_other (id : nat) (toasts : list Toast) :
  Forall (fun t => (toast_id t < id)%nat) toasts ->
  map (fadeToast id) toasts = toasts.
Proof.
  induction 1 as [| t r Ht _ IH]; [reflexivity |].
  cbn [map]. rewrite IH. unfold fadeToast.
  replace (Nat.eqb (toast_id t) id) with false
    by (symmetry; apply Nat.eqb_neq; lia).
  reflexivity.
Qed.

Lemma removeToast_other (id : nat) (toasts : list Toast) :
  Forall (fun t => (toast_id t < id)%nat) toasts ->
  filter (fun t => negb (Nat.eqb (toast_id t) id)) toasts = toasts.
Proof.
  induction 1 as [| t r Ht _ IH]; [reflexivity |].
  cbn [filter]. rewrite IH.
  replace (Nat.eqb (toast_id t) id) with false
    by (symmetry; apply Nat.eqb_neq; lia).
  reflexivity.
Qed.

(** X5. A toast lives through its two timers: shown by [showToast], it is
    faded when the 3000 ms timer fires and gone when the 300 ms timer that
    the first one registers fires; the toasts that were there and the
    pending timers are then what they were before the toast was shown. *)
Theorem toast_fades_then_disappears
        (m type : string) (s : State) (toasts : list Toast) (now1 now2 : Z) :
  toast_container s = Some toasts ->
  toastsFresh s ->
  let i := List.length (timers s) in
  let s1 := exec (showToast m type) s in
  let s2 := fire i now1 s1 in
  let s3 := fire i now2 s2 in
  toast_container s1
  = Some (toasts ++ [mkToast (next_toast s) ("toast " ++ type) m false])%list /\
  timers s1 = (timers s ++ [mkTimer (CbToastFade (next_toast s)) 3000])%list /\
  toast_container s2
  = Some (toasts ++ [mkToast (next_toast s) ("toast " ++ type) m true])%list /\
  timers s2 = (timers s ++ [mkTimer (CbToastRemove (next_toast s)) 300])%list /\
  toast_container s3 = Some toasts /\
  timers s3 = timers s.
Proof.
  intros Hc Hfresh i s1 s2 s3.
  specialize (Hfresh toasts Hc).
  assert (E1 : s1 = set_timers (timers s ++ [mkTimer (CbToastFade (next_toast s)) 3000])
                      (set_toasts (toasts ++ [mkToast (next_toast s) ("toast " ++ type) m false])
                                  (S (next_toast s)) s)).
  { unfold s1, exec. now rewrite (showToast_container m type s toasts Hc). }
  assert (E2 : s2 = set_timers (timers s ++ [mkTimer (CbToastRemove (next_toast s)) 300])
                      (set_toasts (toasts ++ [mkToast (next_toast s) ("toast " ++ type) m true])
                                  (S (next_toast s)) s)).
  { unfold s2, fire. rewrite E1. cbn [timers set_timers]. unfold i.
    rewrite nth_error_last, removeAt_last.
    cbv [runCallback exec bind gets modify setTimeout ret].
    cbn [callback snd toast_container next_toast set_toasts set_timers timers].
    rewrite map_app, (fadeToast_other _ _ Hfresh). cbn [map].
    unfold fadeToast. cbn [toast_id toast_className toast_message].
    rewrite Nat.eqb_refl. reflexivity. }
  assert (E3 : s3 = set_toasts toasts (S (next_toast s)) s).
  { unfold s3, fire. rewrite E2. cbn [timers set_timers]. unfold i.
    rewrite nth_error_last, removeAt_last.
    cbv [runCallback exec bind gets modify setTimeout ret].
    cbn [callback snd toast_container next_toast set_toasts set_timers timers].
    rewrite filter_app, (removeToast_other _ _ Hfresh). cbn [filter toast_id].
    rewrite Nat.eqb_refl. cbn [negb]. rewrite app_nil_r.
    destruct s; reflexivity. }
  rewrite E1, E2, E3. repeat split.
Qed.

Lemma toast_fades_then_disappears_witness :
  toast_container
    (fire 0 (sample_now + 3300)
          (fire 0 (sample_now + 3000)
                (exec (showToast "Saved" "info") page_never_claimed)))
  = Some [] /\
  timers
    (fire 0 (sample_now + 3300)
          (fire 0 (sample_now + 3000)
                (exec (showToast "Saved" "info") page_never_claimed)))
  = [].
Proof.
  destruct (toast_fades_then_disappears "Saved" "info" page_never_claimed []
              (sample_now + 3000) (sample_now + 3300) eq_refl)
    as (_ & _ & _ & _ & Hc & Ht).
  - intros toasts [= <-]. constructor.
  - split; [exact Hc | exact Ht].
Defined.

(** The hypothesis of the life cycle is an invariant of the page: it holds
    of an empty container and every step keeps it. *)
Lemma toastsFresh_showToast (m type : string) (s : State) :
  toastsFresh s -> toastsFresh (exec (showToast m type) s).
Proof.
  intros Hf. unfold exec.
  destruct (toast_container s) as [toasts |] eqn:Hc.
  - rewrite (showToast_container m type s toasts Hc). cbn [snd].
    intros ts [= <-]. cbn [next_toast set_timers set_toasts].
    apply Forall_app. split.
    + eapply Forall_impl; [| exact (Hf toasts Hc)]. cbn. intros; lia.
    + constructor; [cbn; lia | constructor].
  - rewrite (showToast_no_container m type s Hc). exact Hf.
Qed.

Lemma toastsFresh_fire (i : nat) (now : Z) (s : State) :
  toastsFresh s -> toastsFresh (fire i now s).
Proof.
  intros Hf. unfold fire.
  destruct (nth_error (timers s) i) as [[cb d] |]; [| exact Hf].
  cbn [callback]. unfold toastsFresh in *. destruct cb as [| id | id].
  - cbn [runCallback].
    destruct (checkDailyBonus_frame now (set_timers (removeAt i (timers s)) s))
      as (_ & (_ & Ht & Hn & _) & _).
    intros ts Hts. rewrite Ht in Hts. rewrite Hn. exact (Hf ts Hts).
  - cbv [runCallback exec bind gets modify setTimeout ret].
    cbn [snd toast_container next_toast set_timers].
    destruct (toast_container s) as [toasts |] eqn:Hc;
      cbn [snd toast_container next_toast set_timers set_toasts];
      [| rewrite Hc; discriminate].
    intros ts [= <-].
    apply Forall_forall. intros t Ht. apply in_map_iff in Ht as (t0 & <- & Ht0).
    pose proof (proj1 (Forall_forall _ _) (Hf toasts eq_refl) t0 Ht0) as Hlt.
    unfold fadeToast. destruct (Nat.eqb (toast_id t0) id); exact Hlt.
  - cbv [runCallback exec bind gets modify setTimeout ret].
    cbn [snd toast_container next_toast set_timers].
    destruct (toast_container s) as [toasts |] eqn:Hc;
      cbn [snd toast_container next_toast set_timers set_toasts];
      [| rewrite Hc; discriminate].
    intros ts [= <-].
    apply Forall_forall. intros t Ht. apply filter_In in Ht as [Ht _].
    exact (proj1 (Forall_forall _ _) (Hf toasts eq_refl) t Ht).
Qed.

(** ** More on [checkDailyBonus] *)

(** X6. A claim time that is not in the past of the clock (the server's
    clock ahead of the browser's, or a claim in this very millisecond) is
    not caught by either test: the button goes to COOLDOWN and the hours
    shown are 24 or more. *)
Theorem claim_not_in_the_past_shows_a_day_or_more
        (now : Z) (s : State) (u : UserData) (b : Button) :
  userData s = Some u -> claim_daily_btn s = Some b ->
  last_daily_claim u <> 0 ->
  now <= last_daily_claim u ->
  exists b' h m sec,
    claim_daily_btn (exec (checkDailyBonus now) s) = Some b' /\
    modeOf b' = COOLDOWN /\
    textContent b' = countdownText h m sec /\
    h = (86400000 + (last_daily_claim u - now)) / 3600000 /\
    24 <= h.
Proof.
  intros Hu Hb Hnz Hfut. unfold exec.
  destruct (checkDailyBonus_cases now s u b Hu Hb) as [[Hc _] | [_ ->]];
    [lia |]. cbn [snd].
  rewrite ONE_DAY_value.
  set (t := 86400000 - (now - last_daily_claim u)).
  exists (cooldownButton b t), (t / 3600000),
    ((t mod 3600000) / 60000), ((t mod 60000) / 1000).
  split; [reflexivity |]. split; [reflexivity |].
  split; [apply cooldownButton_text; unfold t; lia |].
  split; [f_equal; unfold t; lia |].
  unfold t. Z.div_mod_to_equations. lia.
Qed.

Lemma claim_not_in_the_past_shows_a_day_or_more_witness :
  exists b',
    claim_daily_btn (exec (checkDailyBonus sample_now)
                          (page_claimed_at (sample_now + 7200000))) = Some b' /\
    textContent b' = "Next Bonus in 26h 0m 0s".
Proof.
  destruct (claim_not_in_the_past_shows_a_day_or_more sample_now
              (page_claimed_at (sample_now + 7200000))
              (mkUser 1000 3 (sample_now + 7200000))
              (mkButton true [] EmptyString) eq_refl eq_refl)
    as (b' & h & m & sec & Hb' & _).
  - discriminate.
  - unfold sample_now; cbn [last_daily_claim]; lia.
  - exists b'. split; [exact Hb' |].
    assert (E : Some b' = Some (mkButton true [] "Next Bonus in 26h 0m 0s"))
      by (rewrite <- Hb'; reflexivity).
    injection E as ->. reflexivity.
Defined.

Lemma classList_add_incl (c : string) (l : list string) :
  incl l (classList_add c l).
Proof.
  unfold classList_add. destruct (existsb (String.eqb c) l).
  - apply incl_refl.
  - apply incl_appl, incl_refl.
Qed.

(** X7. [checkDailyBonus] never takes a class off the button: whatever the
    time, the classes it had are still there afterwards, so a button once
    marked ready keeps the mark when a later evaluation disables it. *)
Theorem checkDailyBonus_keeps_classes
        (now : Z) (s : State) (b : Button) :
  claim_daily_btn s = Some b ->
  exists b',
    claim_daily_btn (exec (checkDailyBonus now) s) = Some b' /\
    incl (classList b) (classList b') /\
    (In "ready" (classList b) -> In "ready" (classList b')).
Proof.
  intros Hb. unfold exec.
  assert (Hgoal : forall b', incl (classList b) (classList b') ->
            incl (classList b) (classList b') /\
            (In "ready" (classList b) -> In "ready" (classList b')))
    by (intros b' Hi; split; [exact Hi | apply Hi]).
  destruct (userData s) as [u |] eqn:Hu.
  - destruct (checkDailyBonus_cases now s u b Hu Hb) as [[_ ->] | [_ ->]];
      cbn [snd].
    + exists (claimableButton b). split; [reflexivity |].
      apply Hgoal. apply classList_add_incl.
    + eexists. split; [reflexivity |]. apply Hgoal. apply incl_refl.
  - rewrite checkDailyBonus_no_user by assumption. cbn [snd].
    exists b. split; [assumption |]. apply Hgoal, incl_refl.
Qed.

Lemma checkDailyBonus_keeps_classes_witness :
  exists b',
    claim_daily_btn
      (exec (checkDailyBonus sample_now)
            (set_claim_daily_btn (mkButton false ["ready"] "Claim Daily Bonus")
                                 (page_claimed_at (sample_now - 3600000))))
    = Some b' /\
    disabled b' = true /\ In "ready" (classList b').
Proof.
  destruct (checkDailyBonus_keeps_classes sample_now
              (set_claim_daily_btn (mkButton false ["ready"] "Claim Daily Bonus")
                                   (page_claimed_at (sample_now - 3600000)))
              (mkButton false ["ready"] "Claim Daily Bonus") eq_refl)
    as (b' & Hb' & _ & Hready).
  exists b'. split; [exact Hb' |]. split.
  - assert (E : Some b' = Some (mkButton true ["ready"] "Next Bonus in 23h 0m 0s"))
      by (rewrite <- Hb'; reflexivity).
    injection E as ->. reflexivity.
  - apply Hready. now left.
Defined.

Lemma classList_add_twice (c : string) (l : list string) :
  classList_add c (classList_add c l) = classList_add c l.
Proof.
  unfold classList_add at 1.
  replace (existsb (String.eqb c) (classList_add c l)) with true; [reflexivity |].
  symmetry. apply existsb_exists. exists c.
  split; [apply classList_add_In | apply String.eqb_refl].
Qed.

(** X8. Run again at a time at which the button is CLAIMABLE,
    [checkDailyBonus] changes nothing at all: the page after two runs is
    the page after one (the ready class is not added twice). *)
Theorem checkDailyBonus_claimable_idempotent
        (now now' : Z) (s : State) (u : UserData) (b : Button) :
  userData s = Some u -> claim_daily_btn s = Some b ->
  (last_daily_claim u = 0 \/ now - last_daily_claim u >= 86400000) ->
  (last_daily_claim u = 0 \/ now' - last_daily_claim u >= 86400000) ->
  exec (checkDailyBonus now') (exec (checkDailyBonus now) s)
  = exec (checkDailyBonus now) s.
Proof.
  intros Hu Hb Hc Hc'. unfold exec.
  rewrite (checkDailyBonus_claimable now s u b Hu Hb)
    by (now apply claimable_test).
  cbn [snd].
  rewrite (checkDailyBonus_claimable now'
             (set_claim_daily_btn (claimableButton b) s) u (claimableButton b)
             Hu eq_refl)
    by (now apply claimable_test).
  cbn [snd]. unfold claimableButton. cbn [classList].
  rewrite classList_add_twice. reflexivity.
Qed.

Lemma checkDailyBonus_claimable_idempotent_witness :
  exec (checkDailyBonus (sample_now + 1000))
       (exec (checkDailyBonus sample_now) page_never_claimed)
  = exec (checkDailyBonus sample_now) page_never_claimed.
Proof.
  apply (checkDailyBonus_claimable_idempotent sample_now (sample_now + 1000)
           page_never_claimed (mkUser 1000 3 0) (mkButton true [] EmptyString)
           eq_refl eq_refl); left; reflexivity.
Defined.

(** X9. A tick that fires never multiplies: on a hydrated page with the
    button, the number of pending ticks after it has fired is the same in
    COOLDOWN (it is replaced by one new tick) and one less in CLAIMABLE. *)
Theorem fired_tick_replaces_itself_at_most
        (i : nat) (d now : Z) (s : State) (u : UserData) (b : Button) :
  userData s = Some u -> claim_daily_btn s = Some b ->
  nth_error (timers s) i = Some (mkTimer CbCheckDailyBonus d) ->
  exists b',
    claim_daily_btn (fire i now s) = Some b' /\
    (modeOf b' = COOLDOWN ->
     List.length (ticks (fire i now s)) = List.length (ticks s)) /\
    (modeOf b' = CLAIMABLE ->
     S (List.length (ticks (fire i now s))) = List.length (ticks s)).
Proof.
  intros Hu Hb Hi. unfold fire, exec. rewrite Hi. cbn [callback runCallback].
  pose proof (ticks_removeAt i d (timers s) Hi) as Hlen.
  destruct (checkDailyBonus_cases now (set_timers (removeAt i (timers s)) s) u b Hu Hb)
    as [[_ ->] | [_ ->]]; cbn [snd].
  - exists (claimableButton b). split; [reflexivity |].
    split; [discriminate |]. intros _. exact Hlen.
  - eexists. split; [reflexivity |]. split; [| discriminate].
    intros _. unfold ticks. cbn [timers set_timers set_claim_daily_btn].
    rewrite filter_app, length_app. cbn [filter tick callback List.length].
    unfold ticks in Hlen. lia.
Qed.

Lemma fired_tick_replaces_itself_at_most_witness :
  exists b',
    claim_daily_btn
      (fire 0 (sample_now + 1000)
            (exec (checkDailyBonus sample_now) (page_claimed_at (sample_now - 3600000))))
    = Some b' /\
    (modeOf b' = COOLDOWN ->
     List.length
       (ticks (fire 0 (sample_now + 1000)
                (exec (checkDailyBonus sample_now)
                      (page_claimed_at (sample_now - 3600000))))) = 1%nat).
Proof.
  destruct (fired_tick_replaces_itself_at_most 0 1000 (sample_now + 1000)
              (exec (checkDailyBonus sample_now) (page_claimed_at (sample_now - 3600000)))
              (mkUser 1000 3 (sample_now - 3600000))
              (mkButton true [] "Next Bonus in 23h 0m 0s")
              eq_refl eq_refl eq_refl)
    as (b' & Hb' & Hcool & _).
  exists b'. split; [exact Hb' |]. intros Hm. rewrite (Hcool Hm). reflexivity.
Defined.

(** ** [updateBalance] and [loadDashboard] *)

(** [updateBalance] never throws and writes the formatted balance into the
    displays that exist. *)
Lemma updateBalance_writes (v : Z) (s : State) :
  result (updateBalance v) s = Normal tt /\
  nav_balance (exec (updateBalance v) s)
  = option_map (fun _ => formatNumber v) (nav_balance s) /\
  user_balance (exec (updateBalance v) s)
  = option_map (fun _ => formatNumber v) (user_balance s).
Proof.
  unfold result, exec. cbv [updateBalance bind gets modify ret].
  destruct s as [u tc nt nb ub ds rt cb tm co].
  cbn [nav_balance user_balance set_nav_balance set_user_balance fst snd].
  destruct nb, ub; cbn [nav_balance user_balance set_nav_balance set_user_balance
                        fst snd option_map]; repeat split.
Qed.

(** X10. [updateBalance] writes the formatted balance into each balance
    display that the page has and creates none; a second update overwrites
    the first, so the page after two updates is the page after the last. *)
Theorem updateBalance_last_write_wins (a b : Z) (s : State) :
  result (updateBalance b) s = Normal tt /\
  nav_balance (exec (updateBalance b) s)
  = option_map (fun _ => formatNumber b) (nav_balance s) /\
  user_balance (exec (updateBalance b) s)
  = option_map (fun _ => formatNumber b) (user_balance s) /\
  exec (updateBalance b) (exec (updateBalance a) s) = exec (updateBalance b) s.
Proof.
  unfold result, exec. cbv [updateBalance bind gets modify ret].
  destruct s as [u tc nt nb ub ds rt cb tm co].
  cbn [nav_balance user_balance set_nav_balance set_user_balance fst snd].
  destruct nb, ub; cbn [nav_balance user_balance set_nav_balance set_user_balance
                        fst snd option_map]; repeat split.
Qed.

Lemma updateBalance_keeps (v : Z) (s : State) :
  userData (exec (updateBalance v) s) = userData s /\
  claim_daily_btn (exec (updateBalance v) s) = claim_daily_btn s /\
  daily_streak_el (exec (updateBalance v) s) = daily_streak_el s /\
  recent_transactions (exec (updateBalance v) s) = recent_transactions s /\
  toast_container (exec (updateBalance v) s) = toast_container s /\
  next_toast (exec (updateBalance v) s) = next_toast s /\
  timers (exec (updateBalance v) s) = timers s /\
  console (exec (updateBalance v) s) = console s.
Proof.
  unfold exec. cbv [updateBalance bind gets modify ret].
  destruct (nav_balance s); cbn [user_balance set_nav_balance snd];
    destruct (user_balance s); repeat split.
Qed.

Lemma displayTransactions_runs (txs : list Transaction) (s : State) :
  exists s',
    displayTransactions txs s = (Normal tt, s') /\
    userData s' = userData s /\
    claim_daily_btn s' = claim_daily_btn s /\
    toast_container s' = toast_container s /\
    timers s' = timers s.
Proof.
  cbv [displayTransactions bind gets modify ret].
  destruct (recent_transactions s).
  - destruct (Z.of_nat (List.length txs) =? 0);
      eexists; (split; [reflexivity |]); repeat split.
  - exists s. repeat split.
Qed.

Lemma ticks_showToast (m type : string) (s : State) :
  ticks (exec (showToast m type) s) = ticks s.
Proof.
  unfold exec. destruct (toast_container s) as [toasts |] eqn:Hc.
  - rewrite (showToast_container m type s toasts Hc). cbn [snd].
    unfold ticks. cbn [timers set_timers set_toasts].
    rewrite filter_app. cbn [filter callback]. apply app_nil_r.
  - now rewrite (showToast_no_container m type s Hc).
Qed.

Lemma showToast_adds (m type : string) (s : State) (toasts : list Toast) :
  toast_container s = Some toasts ->
  toast_container (exec (showToast m type) s)
  = Some (toasts ++ [mkToast (next_toast s) ("toast " ++ type) m false])%list.
Proof.
  intros Hc. unfold exec. now rewrite (showToast_container m type s toasts Hc).
Qed.

Lemma showToast_keeps (m type : string) (s : State) :
  result (showToast m type) s = Normal tt /\
  userData (exec (showToast m type) s) = userData s /\
  claim_daily_btn (exec (showToast m type) s) = claim_daily_btn s /\
  nav_balance (exec (showToast m type) s) = nav_balance s /\
  user_balance (exec (showToast m type) s) = user_balance s /\
  daily_streak_el (exec (showToast m type) s) = daily_streak_el s /\
  recent_transactions (exec (showToast m type) s) = recent_transactions s /\
  console (exec (showToast m type) s) = console s.
Proof.
  unfold result, exec. destruct (toast_container s) as [toasts |] eqn:Hc.
  - rewrite (showToast_container m type s toasts Hc). repeat split.
  - rewrite (showToast_no_container m type s Hc). repeat split.
Qed.

(** X11. When the profile request fails, [loadDashboard] hydrates nothing:
    the user data, the balance displays, the transaction list and the claim
    button are what they were and no tick is scheduled, whatever the
    transactions request would have answered.  The toast reads
    Error loading dashboard; the message of the failure reaches the console
    only. *)
Theorem loadDashboard_profile_failure
        (profile : FetchOutcome UserData)
        (txResponse : FetchOutcome (list Transaction))
        (m : string) (now : Z) (s : State) :
  Fails profile m ->
  let s' := exec (loadDashboard profile txResponse now) s in
  result (loadDashboard profile txResponse now) s = Normal tt /\
  userData s' = userData s /\
  claim_daily_btn s' = claim_daily_btn s /\
  nav_balance s' = nav_balance s /\
  user_balance s' = user_balance s /\
  recent_transactions s' = recent_transactions s /\
  ticks s' = ticks s /\
  (forall toasts,
      toast_container s = Some toasts ->
      toast_container s'
      = Some (toasts ++ [mkToast (next_toast s) "toast error"
                                 "Error loading dashboard" false])%list) /\
  (exists e, err_message e = m /\ console s' = (console s ++ [e])%list).
Proof.
  intros H s'. destruct (apiCall_fails profile m s H) as (e & He & E).
  assert (Es : loadDashboard profile txResponse now s
               = showToast "Error loading dashboard" "error"
                           (set_console (console s ++ [e]) s)).
  { unfold loadDashboard, tryCatch. unfold bind at 1. now rewrite E. }
  unfold s', result, exec. rewrite Es.
  set (s1 := set_console (console s ++ [e]) s).
  destruct (showToast_keeps "Error loading dashboard" "error" s1)
    as (Hr & Hu & Hb & Hn & Hub & _ & Hrt & Hco).
  unfold result, exec in *.
  repeat (split; [assumption |]).
  split; [apply (ticks_showToast "Error loading dashboard" "error" s1) |].
  split.
  - intros toasts Hc. apply (showToast_adds _ _ s1 toasts Hc).
  - exists e. split; [assumption | exact Hco].
Qed.

Lemma loadDashboard_profile_failure_witness :
  userData (exec (loadDashboard (FetchRejects (mkError "TypeError" "Failed to fetch"))
                                (FetchResolves true (JsonResolves (mkBody None [])))
                                sample_now)
                 (set_userData None page_never_claimed)) = None.
Proof.
  destruct (loadDashboard_profile_failure
              (FetchRejects (mkError "TypeError" "Failed to fetch"))
              (FetchResolves true (JsonResolves (mkBody None [])))
              "Failed to fetch" sample_now
              (set_userData None page_never_claimed)
              (fails_transport (mkError "TypeError" "Failed to fetch")))
    as (_ & Hu & _).
  exact Hu.
Defined.

(** X12. When the profile loads and the transactions request fails, the
    page is left half loaded: the user data is set and the balance displays
    show the balance, but the transaction list is not rendered, the claim
    button is never evaluated (it is what it was, with no tick scheduled)
    and the toast reads Error loading dashboard. *)
Theorem loadDashboard_transactions_failure
        (pb : Body UserData) (txResponse : FetchOutcome (list Transaction))
        (m : string) (now : Z) (s : State) :
  Fails txResponse m ->
  let s' := exec (loadDashboard (FetchResolves true (JsonResolves pb))
                                txResponse now) s in
  result (loadDashboard (FetchResolves true (JsonResolves pb)) txResponse now) s
  = Normal tt /\
  userData s' = Some (payload pb) /\
  nav_balance s'
  = option_map (fun _ => formatNumber (balance (payload pb))) (nav_balance s) /\
  user_balance s'
  = option_map (fun _ => formatNumber (balance (payload pb))) (user_balance s) /\
  recent_transactions s' = recent_transactions s /\
  claim_daily_btn s' = claim_daily_btn s /\
  ticks s' = ticks s /\
  (forall toasts,
      toast_container s = Some toasts ->
      toast_container s'
      = Some (toasts ++ [mkToast (next_toast s) "toast error"
                                 "Error loading dashboard" false])%list).
Proof.
  intros H s'.
  set (s1 := set_userData (Some (payload pb)) s).
  set (s2 := exec (updateBalance (balance (payload pb))) s1).
  destruct (updateBalance_writes (balance (payload pb)) s1)
    as (Hres2 & Hnav2 & Hub2).
  assert (E2 : updateBalance (balance (payload pb)) s1 = (Normal tt, s2)).
  { unfold result in Hres2. unfold s2, exec.
    destruct (updateBalance (balance (payload pb)) s1) as [o x].
    cbn [fst] in Hres2. now subst o. }
  destruct (updateBalance_runs (balance (payload pb)) s1)
    as (s2' & E2' & Hu2 & Hb2 & Hel2).
  rewrite E2 in E2'. injection E2' as <-.
  change (userData s1) with (Some (payload pb)) in Hu2.
  change (claim_daily_btn s1) with (claim_daily_btn s) in Hb2.
  assert (Hkeep2 : toast_container s2 = toast_container s /\
                   next_toast s2 = next_toast s /\
                   recent_transactions s2 = recent_transactions s /\
                   timers s2 = timers s).
  { unfold s2, exec. cbv [updateBalance bind gets modify ret].
    destruct (nav_balance s1); cbn [user_balance set_nav_balance snd];
      destruct (user_balance s1); repeat split. }
  destruct Hkeep2 as (Htc2 & Hnt2 & Hrt2 & Htm2).
  (* the state in which the handler runs *)
  assert (Hh : exists s3,
             loadDashboard (FetchResolves true (JsonResolves pb)) txResponse now s
             = showToast "Error loading dashboard" "error" s3 /\
             userData s3 = Some (payload pb) /\
             nav_balance s3 = nav_balance s2 /\
             user_balance s3 = user_balance s2 /\
             recent_transactions s3 = recent_transactions s /\
             claim_daily_btn s3 = claim_daily_btn s /\
             ticks s3 = ticks s /\
             toast_container s3 = toast_container s /\
             next_toast s3 = next_toast s).
  { destruct (daily_streak_el s2) as [old |] eqn:Hel.
    - destruct (apiCall_fails txResponse m
                  (set_daily_streak_el (numToString (daily_streak (payload pb))) s2) H)
        as (e & _ & E).
      eexists. split.
      + unfold loadDashboard, tryCatch, bind. rewrite apiCall_ok.
        cbv [modify]. fold s1. rewrite E2.
        rewrite (set_streak_text_runs _ s2 old Hel), E. reflexivity.
      + cbn [userData nav_balance user_balance recent_transactions
             claim_daily_btn toast_container next_toast set_console
             set_daily_streak_el].
        unfold ticks. cbn [timers set_console set_daily_streak_el].
        rewrite Htm2. repeat split; congruence.
    - exists s2. split.
      + unfold loadDashboard, tryCatch, bind. rewrite apiCall_ok.
        cbv [modify]. fold s1. rewrite E2.
        cbv [set_streak_text bind gets throw]. rewrite Hel. reflexivity.
      + unfold ticks. rewrite Htm2. repeat split; congruence. }
  destruct Hh as (s3 & Es & Hu3 & Hn3 & Hub3 & Hrt3 & Hb3 & Htk3 & Htc3 & Hnt3).
  unfold s', result, exec. rewrite Es.
  destruct (showToast_keeps "Error loading dashboard" "error" s3)
    as (Hr & Hu & Hb & Hn & Hub & _ & Hrt & _).
  unfold result, exec in *.
  split; [assumption |].
  split; [congruence |].
  split; [rewrite Hn, Hn3; exact Hnav2 |].
  split; [rewrite Hub, Hub3; exact Hub2 |].
  split; [congruence |].
  split; [congruence |].
  split; [rewrite <- Htk3; apply (ticks_showToast _ _ s3) |].
  intros toasts Hc. rewrite <- Hnt3.
  apply (showToast_adds _ _ s3 toasts). congruence.
Qed.

Lemma loadDashboard_transactions_failure_witness :
  claim_daily_btn
    (exec (loadDashboard
             (FetchResolves true (JsonResolves (mkBody None (mkUser 2500 7 0))))
             (FetchResolves false (JsonResolves (mkBody (Some "Server error") [])))
             sample_now)
          (set_userData None page_never_claimed))
  = Some (mkButton true [] EmptyString) /\
  nav_balance
    (exec (loadDashboard
             (FetchResolves true (JsonResolves (mkBody None (mkUser 2500 7 0))))
             (FetchResolves false (JsonResolves (mkBody (Some "Server error") [])))
             sample_now)
          (set_userData None page_never_claimed))
  = Some "2,500".
Proof.
  destruct (loadDashboard_transactions_failure
              (mkBody None (mkUser 2500 7 0))
              (FetchResolves false (JsonResolves (mkBody (Some "Server error") [])))
              "Server error" sample_now (set_userData None page_never_claimed))
    as (_ & _ & Hn & _ & _ & Hb & _).
  - apply fails_status_message; [reflexivity | discriminate].
  - split; [exact Hb | exact Hn].
Defined.

(** X13. When both requests succeed on a page that has the streak display,
    [loadDashboard] shows no toast, sets the user data to the profile,
    shows its balance and streak, renders the transactions as
    [displayTransactions] does and leaves the claim button as
    [checkDailyBonus] evaluates it on the loaded profile. *)
Theorem loadDashboard_success
        (pb : Body UserData) (tb : Body (list Transaction))
        (now : Z) (s : State) (old : string) :
  daily_streak_el s = Some old ->
  let s' := exec (loadDashboard (FetchResolves true (JsonResolves pb))
                                (FetchResolves true (JsonResolves tb)) now) s in
  result (loadDashboard (FetchResolves true (JsonResolves pb))
                        (FetchResolves true (JsonResolves tb)) now) s
  = Normal tt /\
  userData s' = Some (payload pb) /\
  nav_balance s'
  = option_map (fun _ => formatNumber (balance (payload pb))) (nav_balance s) /\
  user_balance s'
  = option_map (fun _ => formatNumber (balance (payload pb))) (user_balance s) /\
  daily_streak_el s' = Some (numToString (daily_streak (payload pb))) /\
  recent_transactions s'
  = recent_transactions (exec (displayTransactions (payload tb)) s) /\
  evaluation s'
  = evaluation (exec (checkDailyBonus now) (set_userData (Some (payload pb)) s)) /\
  toast_container s' = toast_container s /\
  console s' = console s.
Proof.
  intros Hel s'.
  set (s1 := set_userData (Some (payload pb)) s).
  destruct (updateBalance_writes (balance (payload pb)) s1)
    as (_ & Hnav2 & Hub2).
  set (s2 := exec (updateBalance (balance (payload pb))) s1) in *.
  assert (E2 : updateBalance (balance (payload pb)) s1 = (Normal tt, s2)).
  { destruct (updateBalance_runs (balance (payload pb)) s1) as (x & E & _).
    unfold s2, exec. now rewrite E. }
  assert (Hk2 : userData s2 = Some (payload pb) /\
                claim_daily_btn s2 = claim_daily_btn s /\
                daily_streak_el s2 = daily_streak_el s /\
                recent_transactions s2 = recent_transactions s /\
                toast_container s2 = toast_container s /\
                console s2 = console s).
  { unfold s2, exec. cbv [updateBalance bind gets modify ret].
    destruct (nav_balance s1); cbn [user_balance set_nav_balance snd];
      destruct (user_balance s1); repeat split. }
  destruct Hk2 as (Hu2 & Hb2 & Hel2 & Hrt2 & Htc2 & Hco2).
  set (s3 := set_daily_streak_el (numToString (daily_streak (payload pb))) s2).
  set (s4 := exec (displayTransactions (payload tb)) s3).
  assert (E4 : displayTransactions (payload tb) s3 = (Normal tt, s4)).
  { destruct (displayTransactions_runs (payload tb) s3) as (x & E & _).
    unfold s4, exec. now rewrite E. }
  assert (Es : loadDashboard (FetchResolves true (JsonResolves pb))
                             (FetchResolves true (JsonResolves tb)) now s
               = checkDailyBonus now s4).
  { unfold loadDashboard, tryCatch, bind. rewrite apiCall_ok.
    cbv [modify]. fold s1. rewrite E2.
    rewrite (set_streak_text_runs _ s2 old) by congruence. fold s3.
    rewrite apiCall_ok, E4.
    destruct (checkDailyBonus_frame now s4) as (Hres & _).
    unfold result in Hres.
    destruct (checkDailyBonus now s4) as [o x]. cbn [fst] in Hres.
    now subst o. }
  assert (Hk4 : userData s4 = Some (payload pb) /\
                claim_daily_btn s4 = claim_daily_btn s /\
                nav_balance s4 = nav_balance s2 /\
                user_balance s4 = user_balance s2 /\
                daily_streak_el s4 = Some (numToString (daily_streak (payload pb))) /\
                recent_transactions s4
                = recent_transactions (exec (displayTransactions (payload tb)) s) /\
                toast_container s4 = toast_container s /\
                console s4 = console s).
  { unfold s4, exec. cbv [displayTransactions bind gets modify ret].
    cbn [recent_transactions s3 set_daily_streak_el]. rewrite Hrt2.
    destruct (recent_transactions s) eqn:Hrs;
      [destruct (Z.of_nat (List.length (payload tb)) =? 0) |];
      unfold s3;
      cbn [snd userData claim_daily_btn nav_balance user_balance daily_streak_el
           recent_transactions toast_container console set_recent_transactions
           set_daily_streak_el];
      repeat split; try congruence. }
  destruct Hk4 as (Hu4 & Hb4 & Hn4 & Hub4 & Hel4 & Hrt4 & Htc4 & Hco4).
  unfold s', result, exec. rewrite Es.
  destruct (checkDailyBonus_frame now s4)
    as (Hres & (Hu & Htc & _ & Hn & Hub & Hds & Hrt & Hco) & _).
  unfold result, exec in *.
  split; [assumption |].
  split; [congruence |].
  split; [rewrite Hn, Hn4; exact Hnav2 |].
  split; [rewrite Hub, Hub4; exact Hub2 |].
  split; [congruence |].
  split; [congruence |].
  split; [| split; congruence].
  apply (evaluation_check_congr now s4 s1); [exact Hu4 | exact Hb4].
Qed.

Lemma loadDashboard_success_witness :
  evaluation
    (exec (loadDashboard
             (FetchResolves true
                (JsonResolves (mkBody None (mkUser 2500 7 (sample_now - 3600000)))))
             (FetchResolves true (JsonResolves (mkBody None [])))
             sample_now)
          (set_userData None page_never_claimed))
  = Some (COOLDOWN, "Next Bonus in 23h 0m 0s").
Proof.
  destruct (loadDashboard_success
              (mkBody None (mkUser 2500 7 (sample_now - 3600000)))
              (mkBody None []) sample_now
              (set_userData None page_never_claimed) "3" eq_refl)
    as (_ & _ & _ & _ & _ & _ & Hev & _).
  exact (eq_trans Hev eq_refl).
Defined.

(** ** Requests made through the page monad *)

Lemma liftDom_showToast {X} (m type : string) (e : Env X) :
  liftDom (showToast m type) e
  = (Normal tt,
     mkEnv (exec (showToast m type) (dom e)) (sent e) (navigations e) (page e)).
Proof.
  unfold liftDom. destruct (showToast_keeps m type (dom e)) as (Hr & _).
  unfold result in Hr. now rewrite Hr.
Qed.

Lemma liftDom_updateBalance {X} (v : Z) (e : Env X) :
  liftDom (updateBalance v) e
  = (Normal tt,
     mkEnv (exec (updateBalance v) (dom e)) (sent e) (navigations e) (page e)).
Proof.
  unfold liftDom. destruct (updateBalance_writes v (dom e)) as (Hr & _).
  unfold result in Hr. now rewrite Hr.
Qed.

Lemma apiCallX_ok {X P} (endpoint method : string)
      (data : option (list (string * Field))) (b : Body P) (e : Env X) :
  apiCallX endpoint method data (FetchResolves true (JsonResolves b)) e
  = (Normal b, requested (mkRequest endpoint method data) e).
Proof. reflexivity. Qed.

Lemma apiCallX_fails {X P} (endpoint method : string)
      (data : option (list (string * Field)))
      (net : FetchOutcome P) (m : string) (e : Env X) :
  Fails net m ->
  exists err,
    err_message err = m /\
    apiCallX endpoint method data net e
    = (Thrown err,
       mkEnv (set_console (console (dom e) ++ [err]) (dom e))
             (sent e ++ [mkRequest endpoint method data])
             (navigations e) (page e)).
Proof.
  intros H. destruct (apiCall_fails net m (dom e) H) as (err & Hm & E).
  exists err. split; [assumption |].
  cbv [apiCallX bindX modifyX liftDom]. cbn [dom sent navigations page].
  now rewrite E.
Qed.

(** A request guarded by [try]/[catch] whose handler shows a toast: when
    the request fails, what the handler does. *)
Lemma guarded_request_fails {X P} (endpoint method : string)
      (data : option (list (string * Field)))
      (net : FetchOutcome P) (m : string)
      (k : Body P -> JsX X unit) (text : JsError -> string) (e : Env X) :
  Fails net m ->
  exists err,
    err_message err = m /\
    tryCatchX (bindX (apiCallX endpoint method data net) k)
              (fun error => liftDom (showToast (text error) "error")) e
    = (Normal tt,
       mkEnv (exec (showToast (text err) "error")
                   (set_console (console (dom e) ++ [err]) (dom e)))
             (sent e ++ [mkRequest endpoint method data])
             (navigations e) (page e)).
Proof.
  intros H.
  destruct (apiCallX_fails endpoint method data net m e H) as (err & Hm & E).
  exists err. split; [assumption |].
  unfold tryCatchX, bindX. rewrite E. now rewrite liftDom_showToast.
Qed.

(** What the error toast of a failed request leaves of the shared page. *)
Lemma error_toast_effect (m : string) (err : JsError) (s : State) :
  let s' := exec (showToast m "error") (set_console (console s ++ [err]) s) in
  userData s' = userData s /\
  claim_daily_btn s' = claim_daily_btn s /\
  nav_balance s' = nav_balance s /\
  user_balance s' = user_balance s /\
  ticks s' = ticks s /\
  console s' = (console s ++ [err])%list /\
  (forall toasts,
      toast_container s = Some toasts ->
      toast_container s'
      = Some (toasts ++ [mkToast (next_toast s) "toast error" m false])%list).
Proof.
  intros s'. unfold s'.
  set (s1 := set_console (console s ++ [err]) s).
  destruct (showToast_keeps m "error" s1)
    as (_ & Hu & Hb & Hn & Hub & _ & _ & Hco).
  repeat (split; [assumption |]).
  split; [apply (ticks_showToast m "error" s1) |].
  split; [exact Hco |].
  intros toasts Hc. apply (showToast_adds m "error" s1 toasts Hc).
Qed.

(** ** Logout *)

(** X14. [logout] posts to /auth/logout.  When the request fails it shows
    the message of the failure in an error toast and registers no
    navigation; when it succeeds it shows Logged out successfully and
    registers one navigation to the root, 500 ms later. *)
Theorem logout_navigates_only_on_success
        {X : Type} (net : FetchOutcome unit) (m : string) (e : Env X) :
  Fails net m ->
  (resultX (logout net) e = Normal tt /\
   sent (execX (logout net) e)
   = (sent e ++ [mkRequest "/auth/logout" "POST" None])%list /\
   navigations (execX (logout net) e) = navigations e /\
   page (execX (logout net) e) = page e /\
   (forall toasts,
       toast_container (dom e) = Some toasts ->
       toast_container (dom (execX (logout net) e))
       = Some (toasts ++ [mkToast (next_toast (dom e)) "toast error" m false])%list))
  /\
  (forall b : Body unit,
      let e' := execX (logout (FetchResolves true (JsonResolves b))) e in
      sent e' = (sent e ++ [mkRequest "/auth/logout" "POST" None])%list /\
      navigations e' = (navigations e ++ [mkNavigation "/" 500])%list /\
      (forall toasts,
          toast_container (dom e) = Some toasts ->
          toast_container (dom e')
          = Some (toasts ++ [mkToast (next_toast (dom e)) "toast info"
                                     "Logged out successfully" false])%list)).
Proof.
  intros H. split.
  - destruct (guarded_request_fails "/auth/logout" "POST" None net m
                (fun _ => bindX (liftDom (showToast "Logged out successfully" "info"))
                                (fun _ => navigateLater "/" 500))
                err_message e H) as (err & Hm & E).
    unfold resultX, execX, logout. rewrite E. cbn [fst snd sent navigations page dom].
    rewrite Hm.
    destruct (error_toast_effect m err (dom e)) as (_ & _ & _ & _ & _ & _ & Ht).
    repeat (split; [reflexivity |]). exact Ht.
  - intros b e'. unfold e', execX, logout, tryCatchX, bindX.
    rewrite apiCallX_ok, liftDom_showToast.
    unfold requested.
    cbn [navigateLater modifyX snd sent navigations dom].
    repeat (split; [reflexivity |]).
    intros toasts Hc. cbn [dom]. apply showToast_adds. exact Hc.
Qed.

Lemma logout_navigates_only_on_success_witness :
  navigations
    (execX (logout (FetchRejects (mkError "TypeError" "Failed to fetch")))
           (mkEnv page_never_claimed [] [] tt)) = [].
Proof.
  destruct (logout_navigates_only_on_success
              (FetchRejects (mkError "TypeError" "Failed to fetch"))
              "Failed to fetch" (mkEnv page_never_claimed [] [] tt)
              (fails_transport (mkError "TypeError" "Failed to fetch")))
    as ((_ & _ & Hn & _) & _).
  exact Hn.
Defined.

(** ** Dashboard: the welcome bonus *)

(** X15. [claimWelcomeBonus] on a page that shows the welcome card: when
    the request fails, the card stays as it is, the balance displays are
    unchanged and the message of the failure is shown; when it succeeds,
    the balance displays show the new balance and the card is hidden.  In
    both cases the user data, the claim button and the pending ticks of the
    daily bonus are not touched. *)
Theorem claimWelcomeBonus_hides_card_only_on_success
        (net : FetchOutcome Z) (m : string) (e : Env (option string))
        (display : string) :
  page e = Some display ->
  Fails net m ->
  (page (execX (claimWelcomeBonus net) e) = Some display /\
   nav_balance (dom (execX (claimWelcomeBonus net) e)) = nav_balance (dom e) /\
   user_balance (dom (execX (claimWelcomeBonus net) e)) = user_balance (dom e) /\
   userData (dom (execX (claimWelcomeBonus net) e)) = userData (dom e) /\
   claim_daily_btn (dom (execX (claimWelcomeBonus net) e)) = claim_daily_btn (dom e) /\
   ticks (dom (execX (claimWelcomeBonus net) e)) = ticks (dom e) /\
   (forall toasts,
       toast_container (dom e) = Some toasts ->
       toast_container (dom (execX (claimWelcomeBonus net) e))
       = Some (toasts ++ [mkToast (next_toast (dom e)) "toast error" m false])%list))
  /\
  (forall b : Body Z,
      let e' := execX (claimWelcomeBonus (FetchResolves true (JsonResolves b))) e in
      resultX (claimWelcomeBonus (FetchResolves true (JsonResolves b))) e = Normal tt /\
      page e' = Some "none" /\
      nav_balance (dom e')
      = option_map (fun _ => formatNumber (payload b)) (nav_balance (dom e)) /\
      user_balance (dom e')
      = option_map (fun _ => formatNumber (payload b)) (user_balance (dom e)) /\
      userData (dom e') = userData (dom e) /\
      claim_daily_btn (dom e') = claim_daily_btn (dom e) /\
      ticks (dom e') = ticks (dom e) /\
      sent e' = (sent e ++ [mkRequest "/user/claim-welcome" "POST" None])%list).
Proof.
  intros Hp H. split.
  - destruct (guarded_request_fails "/user/claim-welcome" "POST" None net m
                (fun result =>
                   bindX (liftDom (showToast (interpolate (message result)) "success"))
                     (fun _ => bindX (liftDom (updateBalance (payload result)))
                     (fun _ => bindX (getsX page)
                     (fun card => match card with
                                  | None => throwX (nullReadError "style")
                                  | Some _ => modifyX (set_page (Some "none"))
                                  end))))
                err_message e H) as (err & Hm & E).
    unfold execX, claimWelcomeBonus. rewrite E. cbn [snd page dom]. rewrite Hm.
    destruct (error_toast_effect m err (dom e)) as (Hu & Hb & Hn & Hub & Htk & _ & Ht).
    repeat (split; [assumption |]). exact Ht.
  - intros b e'. unfold e', resultX, execX, claimWelcomeBonus, tryCatchX, bindX.
    rewrite apiCallX_ok, liftDom_showToast, liftDom_updateBalance.
    unfold requested. cbn [getsX page]. rewrite Hp.
    cbn [modifyX set_page fst snd page dom sent navigations].
    set (s1 := exec (showToast (interpolate (message b)) "success") (dom e)).
    destruct (showToast_keeps (interpolate (message b)) "success" (dom e))
      as (_ & Hu & Hb & Hn & Hub & _).
    destruct (updateBalance_writes (payload b) s1) as (_ & Hn2 & Hub2).
    destruct (updateBalance_keeps (payload b) s1)
      as (Hu2 & Hb2 & _ & _ & _ & _ & Htm & _).
    fold s1 in Hu, Hb, Hn, Hub.
    split; [reflexivity |]. split; [reflexivity |].
    split; [rewrite <- Hn; exact Hn2 |].
    split; [rewrite <- Hub; exact Hub2 |].
    split; [congruence |]. split; [congruence |].
    split; [| reflexivity].
    unfold ticks. rewrite Htm.
    apply (ticks_showToast (interpolate (message b)) "success" (dom e)).
Qed.

Lemma claimWelcomeBonus_hides_card_only_on_success_witness :
  page (execX (claimWelcomeBonus
                 (FetchResolves false
                    (JsonResolves (mkBody (Some "Welcome bonus already claimed") 0))))
              (mkEnv page_never_claimed [] [] (Some "block")))
  = Some "block".
Proof.
  destruct (claimWelcomeBonus_hides_card_only_on_success
              (FetchResolves false
                 (JsonResolves (mkBody (Some "Welcome bonus already claimed") 0)))
              "Welcome bonus already claimed"
              (mkEnv page_never_claimed [] [] (Some "block")) "block" eq_refl)
    as ((Hp & _) & _).
  - apply fails_status_message; [reflexivity | discriminate].
  - exact Hp.
Defined.

(** ** Auth page *)

Lemma toggleMode_present (e : Env AuthPage) :
  authElementsPresent (page e) ->
  toggleMode e
  = (Normal tt,
     set_page (if isSignup (page e) then loginView else signupView) e).
Proof.
  intros (Ht & Hb & Hg & Hu).
  destruct e as [d sn nv [sg [t |] [b |] [g |] [u |]]]; cbn in Ht, Hb, Hg, Hu;
    try contradiction.
  destruct sg; reflexivity.
Qed.

(** X16. [toggleMode] on a page that has the four elements switches between
    the two views of the form: after one call the title, button, link and
    user name field are those of the other mode, and after two calls the
    page is in the mode it started from, showing that mode's view.  It
    sends nothing and touches nothing outside the form. *)
Theorem toggleMode_switches_views (e : Env AuthPage) :
  authElementsPresent (page e) ->
  resultX toggleMode e = Normal tt /\
  page (execX toggleMode e)
  = (if isSignup (page e) then loginView else signupView) /\
  page (execX toggleMode (execX toggleMode e))
  = (if isSignup (page e) then signupView else loginView) /\
  dom (execX toggleMode e) = dom e /\
  sent (execX toggleMode e) = sent e /\
  navigations (execX toggleMode e) = navigations e.
Proof.
  intros Hp. unfold resultX, execX.
  rewrite (toggleMode_present e Hp). cbn [fst snd].
  assert (Hp' : authElementsPresent
                  (page (set_page (if isSignup (page e) then loginView else signupView) e))).
  { cbn [page set_page]. destruct (isSignup (page e)); repeat split; discriminate. }
  rewrite (toggleMode_present _ Hp'). cbn [snd page set_page dom sent navigations].
  destruct (isSignup (page e)); repeat split.
Qed.

Lemma toggleMode_switches_views_witness :
  page (execX toggleMode (mkEnv page_never_claimed [] [] loginView)) = signupView.
Proof.
  destruct (toggleMode_switches_views (mkEnv page_never_claimed [] [] loginView))
    as (_ & Hp & _).
  - repeat split; discriminate.
  - exact Hp.
Defined.

Lemma toggleMode_flips_first (e : Env AuthPage) :
  isSignup (page (execX toggleMode e)) = negb (isSignup (page e)).
Proof.
  unfold execX.
  destruct e as [d sn nv [sg [t |] [b |] [g |] [u |]]]; destruct sg; reflexivity.
Qed.

(** X17. The auth page always starts in login mode.  [authInit] reads
    [isSignup] from the query string and calls [toggleMode] when it is set;
    [toggleMode] begins by negating [isSignup], so a page opened with
    mode=signup in the query string ends with [isSignup] false and, when its
    elements are there, showing the login view; without it the page is
    left as it is, in login mode too. *)
Theorem authInit_always_starts_in_login_mode (search : string) (e : Env AuthPage) :
  isSignup (page (execX (authInit search) e)) = false /\
  (includes "mode=signup" search = true ->
   authElementsPresent (page e) ->
   page (execX (authInit search) e) = loginView) /\
  (includes "mode=signup" search = false ->
   execX (authInit search) e
   = set_page (mkAuth false (authTitle (page e)) (authButton (page e))
                      (authToggle (page e)) (usernameField (page e))) e).
Proof.
  unfold execX, authInit, bindX. cbn [modifyX getsX page set_page].
  destruct (includes "mode=signup" search) eqn:Hs; cbn [isSignup].
  - set (e1 := set_page (mkAuth true (authTitle (page e)) (authButton (page e))
                                (authToggle (page e)) (usernameField (page e))) e).
    split; [| split; [| discriminate]].
    + exact (toggleMode_flips_first e1).
    + intros _ Hp. rewrite (toggleMode_present e1) by exact Hp. reflexivity.
  - split; [reflexivity |]. split; [discriminate | reflexivity].
Qed.

Lemma authInit_always_starts_in_login_mode_witness :
  page (execX (authInit "?mode=signup")
              (mkEnv page_never_claimed [] [] signupView)) = loginView.
Proof.
  destruct (authInit_always_starts_in_login_mode "?mode=signup"
              (mkEnv page_never_claimed [] [] signupView)) as (_ & H & _).
  apply H; [reflexivity | repeat split; discriminate].
Defined.

(** ** Earn page *)

Lemma renderTask_starts_with_newline (it : string -> string) (t : Task) :
  exists rest, renderTask it t = String (ascii_of_nat 10) rest.
Proof. unfold renderTask, nl. cbn [append]. eexists. reflexivity. Qed.

Lemma cards_are_not_the_placeholder (it : string -> string) (shown : list Task) :
  shown <> [] -> flatten (map (renderTask it) shown) <> noTasks.
Proof.
  destruct shown as [| t r]; [contradiction |]. intros _.
  unfold flatten. cbn [map fold_right].
  destruct (renderTask_starts_with_newline it t) as (rest & ->).
  cbn [append]. discriminate.
Qed.

Lemma displayTasks_present (it : string -> string) (tasks : list Task)
      (e : Env EarnPage) (old : string) :
  tasks_container (page e) = Some old ->
  displayTasks it tasks e
  = (Normal tt,
     set_tasks_container
       (tasksHtml it (shownTasks (currentFilter (page e)) tasks)) e).
Proof.
  intros Hc. cbv [displayTasks bindX getsX modifyX retX]. rewrite Hc.
  fold (shownTasks (currentFilter (page e)) tasks).
  destruct (shownTasks (currentFilter (page e)) tasks) as [| t r] eqn:Es.
  - reflexivity.
  - replace (Z.of_nat (List.length (t :: r)) =? 0) with false
      by (symmetry; apply Z.eqb_neq; cbn [List.length]; lia).
    unfold tasksHtml, flatten. now rewrite join_empty.
Qed.

(** X18. [displayTasks] writes into the tasks container the cards of the
    tasks that pass the current filter, in their order: all of them for the
    filter ALL, those whose type is the filter otherwise.  The
    No tasks available placeholder is written exactly when no task passes,
    which for a filter other than ALL can happen with a list that is not
    empty.  Nothing is sent and nothing else changes. *)
Theorem displayTasks_shows_what_the_filter_lets_through
        (it : string -> string) (tasks : list Task) (e : Env EarnPage)
        (old : string) :
  tasks_container (page e) = Some old ->
  let shown := shownTasks (currentFilter (page e)) tasks in
  exists html,
    execX (displayTasks it tasks) e = set_tasks_container html e /\
    (shown <> [] -> html = flatten (map (renderTask it) shown)) /\
    (html = noTasks <-> shown = []) /\
    (currentFilter (page e) = "ALL" -> shown = tasks) /\
    (currentFilter (page e) <> "ALL" ->
     forall t, In t shown <-> In t tasks /\ task_type t = currentFilter (page e)).
Proof.
  intros Hc shown. exists (tasksHtml it shown).
  split; [unfold execX; now rewrite (displayTasks_present it tasks e old Hc) |].
  split; [destruct shown; [contradiction | reflexivity] |].
  split; [| split].
  - split.
    + intros Hh. destruct shown as [| t r] eqn:Es; [reflexivity |].
      exfalso. apply (cards_are_not_the_placeholder it (t :: r)); [discriminate |].
      exact Hh.
    + intros ->. reflexivity.
  - intros Hall. unfold shown, shownTasks. now rewrite Hall.
  - intros Hnot t. unfold shown, shownTasks.
    replace (String.eqb (currentFilter (page e)) "ALL") with false
      by (symmetry; now apply String.eqb_neq).
    rewrite filter_In, String.eqb_eq. reflexivity.
Qed.

Lemma displayTasks_shows_what_the_filter_lets_through_witness :
  tasks_container
    (page (execX (displayTasks (fun x => x) [mkTask 1 "VIDEO" "Watch" "A video" 50])
                 (mkEnv page_never_claimed [] [] (mkEarn "SURVEY" [] (Some EmptyString)))))
  = Some noTasks.
Proof.
  destruct (displayTasks_shows_what_the_filter_lets_through (fun x => x)
              [mkTask 1 "VIDEO" "Watch" "A video" 50]
              (mkEnv page_never_claimed [] [] (mkEarn "SURVEY" [] (Some EmptyString)))
              EmptyString eq_refl)
    as (html & E & _ & Hph & _).
  rewrite E. cbn [page set_tasks_container set_page tasks_container].
  f_equal. apply Hph. reflexivity.
Defined.

(** What [loadTasks] can change: the shared page, the tasks container and
    the log of requests, which grows by the one request for the tasks. *)
Lemma loadTasks_effect (it : string -> string) (net : FetchOutcome (list Task))
      (e : Env EarnPage) :
  resultX (loadTasks it net) e = Normal tt /\
  sent (execX (loadTasks it net) e) = (sent e ++ [tasksRequest])%list /\
  navigations (execX (loadTasks it net) e) = navigations e /\
  currentFilter (page (execX (loadTasks it net) e)) = currentFilter (page e) /\
  filter_btns (page (execX (loadTasks it net) e)) = filter_btns (page e) /\
  nav_balance (dom (execX (loadTasks it net) e)) = nav_balance (dom e) /\
  user_balance (dom (execX (loadTasks it net) e)) = user_balance (dom e).
Proof.
  destruct (answer_fails_or_ok net) as [[m H] | [b ->]].
  - destruct (guarded_request_fails "/tasks" "GET" None net m
                (fun result => displayTasks it (payload result))
                (fun _ => "Error loading tasks") e H) as (err & _ & E).
    unfold resultX, execX, loadTasks. rewrite E.
    cbn [fst snd sent navigations page dom].
    destruct (error_toast_effect "Error loading tasks" err (dom e))
      as (_ & _ & Hn & Hub & _).
    repeat split; assumption.
  - unfold resultX, execX, loadTasks, tryCatchX, bindX. rewrite apiCallX_ok.
    unfold requested. fold tasksRequest.
    cbv [displayTasks bindX getsX modifyX retX set_tasks_container set_page].
    cbn [page dom sent navigations].
    destruct (tasks_container (page e)); [| repeat split].
    match goal with |- context [if ?c then _ else _] => destruct c end;
      repeat split.
Qed.

Lemma Forall2_map_self {A B} (R : A -> B -> Prop) (g : A -> B) (l : list A) :
  (forall x, R x (g x)) -> Forall2 R l (map g l).
Proof. intros H. induction l; cbn [map]; constructor; auto. Qed.

Lemma classList_toggle_spec (c : string) (force : bool) (l : list string) :
  (In c (classList_toggle c force l) <-> force = true) /\
  (forall x, x <> c -> (In x (classList_toggle c force l) <-> In x l)).
Proof.
  unfold classList_toggle. destruct force.
  - split.
    + split; [reflexivity | intros _; apply classList_add_In].
    + intros x Hx. unfold classList_add.
      destruct (existsb (String.eqb c) l); [reflexivity |].
      rewrite in_app_iff. cbn [In]. intuition congruence.
  - split.
    + split; [| discriminate]. intros Hin. apply filter_In in Hin as [_ Hneq].
      rewrite String.eqb_refl in Hneq. discriminate.
    + intros x Hx. rewrite filter_In. split; [tauto |].
      intros Hin. split; [assumption |].
      apply negb_true_iff, String.eqb_neq. congruence.
Qed.

(** X19. [setFilter] makes the filter current, marks active exactly the
    filter buttons whose data-filter is that filter (their other classes
    are kept) and asks for the tasks once; when the answer comes, the
    container shows what the new filter lets through. *)
Theorem setFilter_marks_buttons_and_reloads
        (it : string -> string) (f : string) (net : FetchOutcome (list Task))
        (e : Env EarnPage) :
  let e' := execX (setFilter it f net) e in
  resultX (setFilter it f net) e = Normal tt /\
  currentFilter (page e') = f /\
  Forall2 (fun old new =>
             data_filter new = data_filter old /\
             (In "active" (btn_classes new) <-> data_filter old = Some f) /\
             (forall c, c <> "active" ->
                        (In c (btn_classes new) <-> In c (btn_classes old))))
          (filter_btns (page e)) (filter_btns (page e')) /\
  sent e' = (sent e ++ [tasksRequest])%list /\
  (forall (b : Body (list Task)) (old : string),
      net = FetchResolves true (JsonResolves b) ->
      tasks_container (page e) = Some old ->
      tasks_container (page e') = Some (tasksHtml it (shownTasks f (payload b)))).
Proof.
  intros e'.
  set (btns := map (fun btn =>
                      mkFilterBtn (data_filter btn)
                        (classList_toggle "active"
                           (match data_filter btn with
                            | Some g => String.eqb g f
                            | None => false
                            end) (btn_classes btn)))
                   (filter_btns (page e))).
  set (e1 := set_page (mkEarn f btns (tasks_container (page e))) e).
  assert (E : setFilter it f net e = (Normal tt, execX (loadTasks it net) e1))
    by reflexivity.
  destruct (loadTasks_effect it net e1) as (_ & Hs & _ & Hf & Hbt & _).
  unfold e', resultX, execX in *. rewrite E. cbn [fst snd].
  split; [reflexivity |]. split; [exact Hf |].
  split; [| split; [exact Hs |]].
  - rewrite Hbt. cbn [e1 page set_page filter_btns]. unfold btns.
    apply Forall2_map_self. intros btn.
    cbn [data_filter btn_classes]. split; [reflexivity |].
    destruct (classList_toggle_spec "active"
                (match data_filter btn with
                 | Some g => String.eqb g f
                 | None => false
                 end) (btn_classes btn)) as [Hact Hoth].
    split; [| exact Hoth].
    rewrite Hact. destruct (data_filter btn) as [g |].
    + rewrite String.eqb_eq. split; congruence.
    + split; discriminate.
  - intros b old -> Hc.
    unfold loadTasks, tryCatchX, bindX. rewrite apiCallX_ok.
    rewrite (displayTasks_present it (payload b) _ old) by exact Hc.
    reflexivity.
Qed.

Lemma setFilter_marks_buttons_and_reloads_witness :
  filter_btns
    (page (execX (setFilter (fun x => x) "VIDEO"
                    (FetchResolves true (JsonResolves (mkBody None []))))
                 (mkEnv page_never_claimed [] []
                        (mkEarn "ALL"
                                [mkFilterBtn (Some "ALL") ["filter-btn"; "active"];
                                 mkFilterBtn (Some "VIDEO") ["filter-btn"]]
                                (Some EmptyString)))))
  = [mkFilterBtn (Some "ALL") ["filter-btn"];
     mkFilterBtn (Some "VIDEO") ["filter-btn"; "active"]] /\
  tasks_container
    (page (execX (setFilter (fun x => x) "VIDEO"
                    (FetchResolves true (JsonResolves (mkBody None []))))
                 (mkEnv page_never_claimed [] []
                        (mkEarn "ALL"
                                [mkFilterBtn (Some "ALL") ["filter-btn"; "active"];
                                 mkFilterBtn (Some "VIDEO") ["filter-btn"]]
                                (Some EmptyString)))))
  = Some noTasks.
Proof.
  destruct (setFilter_marks_buttons_and_reloads (fun x => x) "VIDEO"
              (FetchResolves true (JsonResolves (mkBody None [])))
              (mkEnv page_never_claimed [] []
                     (mkEarn "ALL"
                             [mkFilterBtn (Some "ALL") ["filter-btn"; "active"];
                              mkFilterBtn (Some "VIDEO") ["filter-btn"]]
                             (Some EmptyString))))
    as (_ & _ & _ & _ & Hshow).
  split; [reflexivity |].
  exact (Hshow (mkBody None []) EmptyString eq_refl eq_refl).
Defined.

(** X20. When its request fails, [loadTasks] leaves the tasks container as
    it was (a list shown earlier stays) and shows Error loading tasks, not
    the message of the failure, which reaches the console only. *)
Theorem loadTasks_failure_keeps_the_list
        (it : string -> string) (net : FetchOutcome (list Task)) (m : string)
        (e : Env EarnPage) :
  Fails net m ->
  let e' := execX (loadTasks it net) e in
  page e' = page e /\
  sent e' = (sent e ++ [tasksRequest])%list /\
  (exists err, err_message err = m /\
               console (dom e') = (console (dom e) ++ [err])%list) /\
  (forall toasts,
      toast_container (dom e) = Some toasts ->
      toast_container (dom e')
      = Some (toasts ++ [mkToast (next_toast (dom e)) "toast error"
                                 "Error loading tasks" false])%list).
Proof.
  intros H e'.
  destruct (guarded_request_fails "/tasks" "GET" None net m
              (fun result => displayTasks it (payload result))
              (fun _ => "Error loading tasks") e H) as (err & Hm & E).
  unfold e', execX, loadTasks. rewrite E. cbn [snd sent page dom].
  destruct (error_toast_effect "Error loading tasks" err (dom e))
    as (_ & _ & _ & _ & _ & Hco & Ht).
  split; [reflexivity |]. split; [reflexivity |].
  split; [exists err; split; assumption | exact Ht].
Qed.

Lemma loadTasks_failure_keeps_the_list_witness :
  page (execX (loadTasks (fun x => x)
                 (FetchResolves false (JsonResolves (mkBody (Some "Unauthorized") []))))
              (mkEnv page_never_claimed [] [] (mkEarn "ALL" [] (Some "cards"))))
  = mkEarn "ALL" [] (Some "cards").
Proof.
  destruct (loadTasks_failure_keeps_the_list (fun x => x)
              (FetchResolves false (JsonResolves (mkBody (Some "Unauthorized") [])))
              "Unauthorized"
              (mkEnv page_never_claimed [] [] (mkEarn "ALL" [] (Some "cards"))))
    as (Hp & _).
  - apply fails_status_message; [reflexivity | discriminate].
  - exact Hp.
Defined.

(** X21. [completeTask] posts to /tasks/<id>/complete.  When that fails it
    shows the message of the failure and does nothing else: the balance
    displays and the task list are unchanged and the tasks are not asked
    for again.  When it succeeds the balance displays show the new balance
    and the tasks are asked for again, once, after the post. *)
Theorem completeTask_reloads_only_on_success
        (it : string -> string) (taskId : Z) (net : FetchOutcome Z)
        (reload : FetchOutcome (list Task)) (m : string) (e : Env EarnPage) :
  Fails net m ->
  (let e' := execX (completeTask it taskId net reload) e in
   sent e'
   = (sent e ++ [mkRequest ("/tasks/" ++ numToString taskId ++ "/complete")
                           "POST" None])%list /\
   page e' = page e /\
   nav_balance (dom e') = nav_balance (dom e) /\
   user_balance (dom e') = user_balance (dom e) /\
   (forall toasts,
       toast_container (dom e) = Some toasts ->
       toast_container (dom e')
       = Some (toasts ++ [mkToast (next_toast (dom e)) "toast error" m false])%list))
  /\
  (forall b : Body Z,
      let e' := execX (completeTask it taskId
                         (FetchResolves true (JsonResolves b)) reload) e in
      resultX (completeTask it taskId (FetchResolves true (JsonResolves b)) reload) e
      = Normal tt /\
      sent e'
      = (sent e ++ [mkRequest ("/tasks/" ++ numToString taskId ++ "/complete")
                              "POST" None;
                    tasksRequest])%list /\
      nav_balance (dom e')
      = option_map (fun _ => formatNumber (payload b)) (nav_balance (dom e)) /\
      user_balance (dom e')
      = option_map (fun _ => formatNumber (payload b)) (user_balance (dom e)) /\
      currentFilter (page e') = currentFilter (page e)).
Proof.
  intros H. split.
  - intros e'.
    destruct (guarded_request_fails
                ("/tasks/" ++ numToString taskId ++ "/complete") "POST" None net m
                (fun result =>
                   bindX (liftDom (showToast (interpolate (message result)) "success"))
                     (fun _ => bindX (liftDom (updateBalance (payload result)))
                     (fun _ => detached (loadTasks it reload))))
                err_message e H) as (err & Hm & E).
    unfold e', execX, completeTask. rewrite E. cbn [snd sent page dom]. rewrite Hm.
    destruct (error_toast_effect m err (dom e)) as (_ & _ & Hn & Hub & _ & _ & Ht).
    repeat (split; [first [reflexivity | assumption] |]). exact Ht.
  - intros b e'.
    set (s1 := exec (showToast (interpolate (message b)) "success") (dom e)).
    set (s2 := exec (updateBalance (payload b)) s1).
    set (e2 := mkEnv s2
                 (sent e ++ [mkRequest ("/tasks/" ++ numToString taskId ++ "/complete")
                                       "POST" None])
                 (navigations e) (page e)).
    assert (E : completeTask it taskId (FetchResolves true (JsonResolves b)) reload e
                = (Normal tt, execX (loadTasks it reload) e2)).
    { unfold completeTask, tryCatchX, bindX.
      rewrite apiCallX_ok, liftDom_showToast, liftDom_updateBalance.
      reflexivity. }
    destruct (loadTasks_effect it reload e2) as (_ & Hs & _ & Hf & _ & Hn & Hub).
    destruct (showToast_keeps (interpolate (message b)) "success" (dom e))
      as (_ & _ & _ & Hn1 & Hub1 & _).
    destruct (updateBalance_writes (payload b) s1) as (_ & Hn2 & Hub2).
    fold s1 in Hn1, Hub1. fold s2 in Hn2, Hub2.
    unfold e', resultX, execX in *. rewrite E. cbn [fst snd].
    split; [reflexivity |].
    split; [rewrite Hs; cbn [e2 sent]; now rewrite <- app_assoc |].
    split; [rewrite Hn; cbn [e2 dom]; rewrite Hn2; now rewrite Hn1 |].
    split; [rewrite Hub; cbn [e2 dom]; rewrite Hub2; now rewrite Hub1 |].
    exact Hf.
Qed.

Lemma completeTask_reloads_only_on_success_witness :
  sent (execX (completeTask (fun x => x) 7
                 (FetchResolves false (JsonResolves (mkBody (Some "Task already completed") 0)))
                 (FetchResolves true (JsonResolves (mkBody None []))))
              (mkEnv page_never_claimed [] [] (mkEarn "ALL" [] (Some "cards"))))
  = [mkRequest "/tasks/7/complete" "POST" None].
Proof.
  destruct (completeTask_reloads_only_on_success (fun x => x) 7
              (FetchResolves false (JsonResolves (mkBody (Some "Task already completed") 0)))
              (FetchResolves true (JsonResolves (mkBody None [])))
              "Task already completed"
              (mkEnv page_never_claimed [] [] (mkEarn "ALL" [] (Some "cards"))))
    as ((Hs & _) & _).
  - apply fails_status_message; [reflexivity | discriminate].
  - exact Hs.
Defined.

(** ** Shop page *)

(** X22. [purchaseItem] asks the user first, naming the title and the
    formatted price.  Declined, it sends nothing and changes nothing.
    Confirmed, it posts once to /shop/purchase/<id> with quantity 1,
    whatever title and price it was called with; a failure shows its
    message and leaves the balance displays alone, a success shows the new
    balance; the list of items is never redrawn. *)
Theorem purchaseItem_asks_before_it_sends
        (itemId : Z) (title : string) (price : Z) (net : FetchOutcome Z)
        (m : string) (e : Env ShopPage) :
  Fails net m ->
  let asked :=
    set_page (mkShop (shop_items_container (page e))
                     (confirms (page e)
                      ++ ["Purchase " ++ title ++ " for " ++ formatNumber price ++ " GC?"]))
             e in
  let purchase := mkRequest ("/shop/purchase/" ++ numToString itemId) "POST"
                            (Some [("quantity", FNum 1)]) in
  purchaseItem itemId title price false net e = (Normal tt, asked) /\
  (let e' := execX (purchaseItem itemId title price true net) e in
   sent e' = (sent e ++ [purchase])%list /\
   page e' = page asked /\
   nav_balance (dom e') = nav_balance (dom e) /\
   user_balance (dom e') = user_balance (dom e) /\
   (forall toasts,
       toast_container (dom e) = Some toasts ->
       toast_container (dom e')
       = Some (toasts ++ [mkToast (next_toast (dom e)) "toast error" m false])%list))
  /\
  (forall b : Body Z,
      let e' := execX (purchaseItem itemId title price true
                         (FetchResolves true (JsonResolves b))) e in
      sent e' = (sent e ++ [purchase])%list /\
      page e' = page asked /\
      nav_balance (dom e')
      = option_map (fun _ => formatNumber (payload b)) (nav_balance (dom e)) /\
      user_balance (dom e')
      = option_map (fun _ => formatNumber (payload b)) (user_balance (dom e))).
Proof.
  intros H asked purchase. split; [reflexivity |]. split.
  - intros e'.
    destruct (guarded_request_fails
                ("/shop/purchase/" ++ numToString itemId) "POST"
                (Some [("quantity", FNum 1)]) net m
                (fun result =>
                   bindX (liftDom (showToast (interpolate (message result)) "success"))
                     (fun _ => liftDom (updateBalance (payload result))))
                err_message asked H) as (err & Hm & E).
    assert (E' : purchaseItem itemId title price true net e
                 = tryCatchX
                     (bindX (apiCallX ("/shop/purchase/" ++ numToString itemId) "POST"
                                      (Some [("quantity", FNum 1)]) net)
                        (fun result =>
                           bindX (liftDom (showToast (interpolate (message result)) "success"))
                             (fun _ => liftDom (updateBalance (payload result)))))
                     (fun error => liftDom (showToast (err_message error) "error"))
                     asked) by reflexivity.
    unfold e', execX. rewrite E', E. cbn [snd sent page dom]. rewrite Hm.
    destruct (error_toast_effect m err (dom e)) as (_ & _ & Hn & Hub & _ & _ & Ht).
    repeat (split; [first [reflexivity | assumption] |]). exact Ht.
  - intros b e'.
    assert (E : purchaseItem itemId title price true
                  (FetchResolves true (JsonResolves b)) e
                = (Normal tt,
                   mkEnv (exec (updateBalance (payload b))
                            (exec (showToast (interpolate (message b)) "success") (dom e)))
                         (sent e ++ [purchase]) (navigations e) (page asked))).
    { unfold purchaseItem, confirm, bindX, tryCatchX, negb.
      cbn [modifyX retX]. rewrite apiCallX_ok, liftDom_showToast, liftDom_updateBalance.
      reflexivity. }
    unfold e', execX. rewrite E. cbn [snd sent page dom].
    destruct (showToast_keeps (interpolate (message b)) "success" (dom e))
      as (_ & _ & _ & Hn1 & Hub1 & _).
    destruct (updateBalance_writes (payload b)
                (exec (showToast (interpolate (message b)) "success") (dom e)))
      as (_ & Hn2 & Hub2).
    split; [reflexivity |]. split; [reflexivity |].
    split; [rewrite Hn2; now rewrite Hn1 | rewrite Hub2; now rewrite Hub1].
Qed.

Lemma purchaseItem_asks_before_it_sends_witness :
  sent (execX (purchaseItem 3 "Gift Card" 2500 false (FetchRejects (mkError "TypeError" "Failed to fetch")))
              (mkEnv page_never_claimed [] [] (mkShop (Some "cards") []))) = [] /\
  confirms (page (execX (purchaseItem 3 "Gift Card" 2500 false
                           (FetchRejects (mkError "TypeError" "Failed to fetch")))
                        (mkEnv page_never_claimed [] [] (mkShop (Some "cards") []))))
  = ["Purchase Gift Card for 2,500 GC?"].
Proof.
  destruct (purchaseItem_asks_before_it_sends 3 "Gift Card" 2500
              (FetchRejects (mkError "TypeError" "Failed to fetch"))
              "Failed to fetch"
              (mkEnv page_never_claimed [] [] (mkShop (Some "cards") []))
              (fails_transport (mkError "TypeError" "Failed to fetch")))
    as (E & _).
  unfold execX. rewrite E. split; reflexivity.
Defined.

Lemma renderShopItem_starts_with_newline (item : ShopItem) :
  exists rest, renderShopItem item = String (ascii_of_nat 10) rest.
Proof. unfold renderShopItem, nl. cbn [append]. eexists. reflexivity. Qed.

(** X23. [loadShopItems] asks for /shop/items.  On an answer it draws one
    card per item, all of them and in order, and has no placeholder: an
    empty list empties the container.  On a failure the container keeps
    what it showed and the toast reads Error loading shop. *)
Theorem loadShopItems_draws_every_item
        (net : FetchOutcome (list ShopItem)) (m : string) (e : Env ShopPage)
        (old : string) :
  shop_items_container (page e) = Some old ->
  Fails net m ->
  (let e' := execX (loadShopItems net) e in
   page e' = page e /\
   sent e' = (sent e ++ [mkRequest "/shop/items" "GET" None])%list /\
   (forall toasts,
       toast_container (dom e) = Some toasts ->
       toast_container (dom e')
       = Some (toasts ++ [mkToast (next_toast (dom e)) "toast error"
                                  "Error loading shop" false])%list))
  /\
  (forall b : Body (list ShopItem),
      let e' := execX (loadShopItems (FetchResolves true (JsonResolves b))) e in
      shop_items_container (page e')
      = Some (flatten (map renderShopItem (payload b))) /\
      (flatten (map renderShopItem (payload b)) = EmptyString <-> payload b = []) /\
      confirms (page e') = confirms (page e) /\
      dom e' = dom e /\
      sent e' = (sent e ++ [mkRequest "/shop/items" "GET" None])%list).
Proof.
  intros Hc H. split.
  - intros e'.
    destruct (guarded_request_fails "/shop/items" "GET" None net m
                (fun result => displayShopItems (payload result))
                (fun _ => "Error loading shop") e H) as (err & _ & E).
    unfold e', execX, loadShopItems. rewrite E. cbn [snd sent page dom].
    destruct (error_toast_effect "Error loading shop" err (dom e))
      as (_ & _ & _ & _ & _ & _ & Ht).
    split; [reflexivity |]. split; [reflexivity | exact Ht].
  - intros b e'.
    assert (E : loadShopItems (FetchResolves true (JsonResolves b)) e
                = (Normal tt,
                   mkEnv (dom e) (sent e ++ [mkRequest "/shop/items" "GET" None])
                         (navigations e)
                         (mkShop (Some (flatten (map renderShopItem (payload b))))
                                 (confirms (page e))))).
    { unfold loadShopItems, tryCatchX, bindX. rewrite apiCallX_ok.
      unfold requested.
      cbv [displayShopItems bindX getsX modifyX retX set_page].
      cbn [page dom sent navigations]. rewrite Hc.
      unfold flatten. now rewrite join_empty. }
    unfold e', execX. rewrite E. cbn [snd page dom sent shop_items_container confirms].
    repeat split.
    + intros Hh. destruct (payload b) as [| x r]; [reflexivity |].
      unfold flatten in Hh. cbn [map fold_right] in Hh.
      destruct (renderShopItem_starts_with_newline x) as (rest & Er).
      rewrite Er in Hh. discriminate.
    + intros ->. reflexivity.
Qed.

Lemma loadShopItems_draws_every_item_witness :
  shop_items_container
    (page (execX (loadShopItems (FetchResolves true (JsonResolves (mkBody None []))))
                 (mkEnv page_never_claimed [] [] (mkShop (Some "cards") []))))
  = Some EmptyString.
Proof.
  destruct (loadShopItems_draws_every_item
              (FetchRejects (mkError "TypeError" "Failed to fetch")) "Failed to fetch"
              (mkEnv page_never_claimed [] [] (mkShop (Some "cards") [])) "cards"
              eq_refl (fails_transport (mkError "TypeError" "Failed to fetch")))
    as (_ & Hok).
  destruct (Hok (mkBody None [])) as (Hc & _). exact Hc.
Defined.
